(** * LINE Rich Menu client (richMenuClient.js, config.js): a shallow embedding

    The client module is a set of thin asynchronous operations over one
    dispatch routine ([apiCall]) and one retrying transport wrapper
    ([fetchWithRetry]).  The embedding keeps that shape:

    - JavaScript values that cross the module boundary are JSON values
      ([Json]) or byte buffers; [undefined] is [None] of [option Json];
    - a JavaScript string is held by its UTF-8 bytes; its [length] counts
      UTF-16 code units ([JS_length]), and what cuts a string between code
      units or builds one from bytes ([substring], the decoding of a
      response body) belongs to the host;
    - the process-wide credential ([config.channelAccessToken]) and the
      observable effects (transport calls, back-off sleeps, warnings) live in
      a [World] that every operation threads; a thrown exception or rejected
      promise is the [Throw] result and keeps the world reached so far;
    - what the module does not define itself (the network behind [fetch],
      the UTF-8 decoder, JSON.parse / JSON.stringify, the file system and
      path helpers) is the interface [Host];
    - a [Response] body can be consumed once, as the Fetch standard has it. *)

From Stdlib Require Import Strings.String Strings.Ascii Strings.Byte List ZArith QArith_base Bool Arith Lia.
From Stdlib Require Import DecimalString.
From Equations Require Import Equations.
Import ListNotations.

Set Warnings "-register-all".
Local Open Scope string_scope.
Local Open Scope Z_scope.

(** ** JavaScript values *)

Inductive Json : Type :=
| JNull
| JBool (b : bool)
| JNum (q : Q)
| JStr (s : string)
| JArr (items : list Json)
| JObj (fields : list (string * Json)).

Definition Buffer := list byte.

(** Own-property lookup in an object literal or parsed object. *)
Fixpoint assoc {A : Type} (k : string) (l : list (string * A)) : option A :=
  match l with
  | [] => None
  | (k', v) :: rest => if String.eqb k k' then Some v else assoc k rest
  end.

(** [o[k] = v] on an object: an existing key keeps its place. *)
Fixpoint obj_set {A : Type} (k : string) (v : A) (l : list (string * A)) : list (string * A) :=
  match l with
  | [] => [(k, v)]
  | (k', v') :: rest =>
      if String.eqb k k' then (k', v) :: rest else (k', v') :: obj_set k v rest
  end.

(** [{ ...a, ...b }]. *)
Definition obj_spread {A : Type} (a b : list (string * A)) : list (string * A) :=
  fold_left (fun acc kv => obj_set (fst kv) (snd kv) acc) b a.

(** ToBoolean. *)
Definition truthy (v : option Json) : bool :=
  match v with
  | None => false
  | Some JNull => false
  | Some (JBool b) => b
  | Some (JNum q) => negb (Qeq_bool q (0 # 1))
  | Some (JStr s) => negb (String.eqb s "")
  | Some (JArr _) => true
  | Some (JObj _) => true
  end.

(** [a || b]. *)
Definition js_or (a b : option Json) : option Json :=
  if truthy a then a else b.

(** [v?.k]: [undefined] on [null] and [undefined]; the keys read by the client
    ([message], [error], [richmenus], [aliases]) are on no prototype, so only
    an object can hold them. *)
Definition opt_member (v : option Json) (k : string) : option Json :=
  match v with
  | Some (JObj fields) => assoc k fields
  | _ => None
  end.

Definition isArray (v : Json) : bool :=
  match v with JArr _ => true | _ => false end.

(** [s.includes(sub)]. *)
Fixpoint includes (s sub : string) : bool :=
  if String.prefix sub s then true
  else match s with
       | EmptyString => false
       | String _ rest => includes rest sub
       end.

(** The UTF-16 code units that the UTF-8 sequence led by a byte stands for:
    none for a continuation byte, two for the lead byte of a four-byte
    sequence (a surrogate pair), one for any other byte. *)
Definition code_units (c : ascii) : nat :=
  let n := nat_of_ascii c in
  if (n <? 128)%nat then 1%nat
  else if (n <? 192)%nat then 0%nat
  else if (n <? 240)%nat then 1%nat
  else 2%nat.

(** [s.length]. *)
Fixpoint JS_length (s : string) : nat :=
  match s with
  | EmptyString => 0%nat
  | String c rest => (code_units c + JS_length rest)%nat
  end.

(** Decimal rendering of an integral number, as a template literal does. *)
Definition Z_toString (z : Z) : string :=
  NilZero.string_of_int (Z.to_int z).

(** ** config.js *)

Record Config : Type := {
  API_BASE_URL : string;
  DATA_API_BASE_URL : string;
  ALLOWED_IMAGE_TYPES : list string;
  MAX_RETRIES : nat;
  RETRY_BASE_DELAY_MS : Z
}.

Definition config : Config := {|
  API_BASE_URL := "https://api.line.me";
  DATA_API_BASE_URL := "https://api-data.line.me";
  ALLOWED_IMAGE_TYPES := ["image/png"; "image/jpeg"];
  MAX_RETRIES := 3;
  RETRY_BASE_DELAY_MS := 1000
|}.

(** [config] with another list of allowed image types. *)
Definition with_allowed (c : Config) (allowed : list string) : Config := {|
  API_BASE_URL := API_BASE_URL c;
  DATA_API_BASE_URL := DATA_API_BASE_URL c;
  ALLOWED_IMAGE_TYPES := allowed;
  MAX_RETRIES := MAX_RETRIES c;
  RETRY_BASE_DELAY_MS := RETRY_BASE_DELAY_MS c
|}.

(** ** Requests, responses, exceptions *)

Inductive RequestBody : Type :=
| BodyText (s : string)
| BodyBuffer (b : Buffer).

Module RequestInit.
Record t : Type := mk {
  method : option string;
  headers : list (string * string);
  body : option RequestBody
}.
Definition empty : t := mk None [] None.
End RequestInit.

(** What the network hands back for one request. *)
Record HttpReply : Type := {
  reply_status : Z;
  reply_headers : list (string * string);
  reply_body : option (list byte)
}.

Module Response.
Record t : Type := mk {
  status : Z;
  headers : list (string * string);
  body : option (list byte);
  bodyUsed : bool
}.
Definition of_reply (r : HttpReply) : t :=
  mk (reply_status r) (reply_headers r) (reply_body r) false.
(** [response.ok]. *)
Definition ok (r : t) : bool := (200 <=? status r) && (status r <=? 299).
(** [response.headers.get(name)]: the list holds one entry for a header
    name, lower-cased, with the combined value of that header. *)
Definition headers_get (r : t) (name : string) : option string :=
  assoc name (headers r).
End Response.

Inductive Exn : Type :=
| RichMenuApiError (message : string) (statusCode : Z) (details : Json)
| SyntaxError (message : string)
| TypeError (message : string)
| HostError (message : string).

(** The constructor's default [details = {}]. *)
Definition default_details : Json := JObj [].

Inductive Result (A : Type) : Type :=
| Return (a : A)
| Throw (e : Exn).
Arguments Return {A} a.
Arguments Throw {A} e.

Inductive Event : Type :=
| EvFetch (url : string) (init : RequestInit.t)
| EvWarn (waitTime : Z) (nth : nat)
| EvDelay (ms : Z).

Record World : Type := {
  channelAccessToken : string;
  trace : list Event
}.

Definition Run (A : Type) : Type := World -> Result A * World.

Definition ret {A : Type} (a : A) : Run A := fun w => (Return a, w).
Definition throw {A : Type} (e : Exn) : Run A := fun w => (Throw e, w).
Definition bind {A B : Type} (c : Run A) (k : A -> Run B) : Run B :=
  fun w =>
    match c w with
    | (Return a, w') => k a w'
    | (Throw e, w') => (Throw e, w')
    end.
Definition emit (e : Event) : Run unit :=
  fun w => (Return tt, {| channelAccessToken := channelAccessToken w;
                          trace := trace w ++ [e] |}).
Definition lift {A : Type} (r : Result A) : Run A := fun w => (r, w).

Declare Scope run_scope.
Delimit Scope run_scope with run.
Notation "x <- c ;; k" := (bind c (fun x => k))
  (at level 100, c at next level, right associativity) : run_scope.
Notation "c ;;; k" := (bind c (fun _ => k))
  (at level 100, right associativity) : run_scope.
Local Open Scope run_scope.

(** ** Reading a trace *)

(** The world after further events. *)
Definition push (w : World) (events : list Event) : World :=
  {| channelAccessToken := channelAccessToken w; trace := trace w ++ events |}.

Definition is_fetch (e : Event) : bool :=
  match e with EvFetch _ _ => true | _ => false end.

(** Number of transport calls in a trace. *)
Definition count_fetch (events : list Event) : nat :=
  length (filter is_fetch events).

(** The sleeps of a trace, in order. *)
Fixpoint delays (events : list Event) : list Z :=
  match events with
  | [] => []
  | EvDelay ms :: rest => ms :: delays rest
  | _ :: rest => delays rest
  end.

(** The requests of a trace, in order. *)
Fixpoint requests (events : list Event) : list (string * RequestInit.t) :=
  match events with
  | [] => []
  | EvFetch url init :: rest => (url, init) :: requests rest
  | _ :: rest => requests rest
  end.

(** One rate-limited attempt: the call, the notice, the back-off sleep. *)
Definition retry_round (base : Z) (url : string) (options : RequestInit.t)
    (attempt : nat) : list Event :=
  let waitTime := base * 2 ^ Z.of_nat attempt in
  [EvFetch url options; EvWarn waitTime (attempt + 1); EvDelay waitTime].

(** [n] rate-limited attempts in a row, numbered from [start]. *)
Definition retry_rounds (base : Z) (url : string) (options : RequestInit.t)
    (start n : nat) : list Event :=
  flat_map (retry_round base url options) (seq start n).

(** What [fetch] resolves or rejects with, for what the network did. *)
Definition final_result (r : Result HttpReply) : Result Response.t :=
  match r with
  | Return reply => Return (Response.of_reply reply)
  | Throw e => Throw e
  end.

(** The bytes of a response body that was not read yet. *)
Definition body_bytes (r : Response.t) : list byte :=
  match Response.body r with
  | Some b => b
  | None => []
  end.

(** ** The host interface *)

Class Host : Type := {
  (** the network behind [fetch]: the reply to a request, given the events so far *)
  network : list Event -> string -> RequestInit.t -> Result HttpReply;
  (** the UTF-8 decoding of a body by [text()] and [json()]: a leading
      byte order mark is dropped, an ill-formed sequence is replaced *)
  TextDecoder_decode : list byte -> string;
  (** [s.substring(start, end)], on UTF-16 code units *)
  String_substring : string -> nat -> nat -> string;
  JSON_parse : string -> option Json;
  JSON_stringify : Json -> string;
  Number_toString : Q -> string;
  String_toLowerCase : string -> string;
  fs_existsSync : string -> bool;
  fs_readFileSync : string -> Result Buffer;
  path_resolve : string -> string;
  path_extname : string -> string;
  Number_toFixed : Q -> nat -> string
}.

(** The text of a response body that was not read yet: the decoding of its
    bytes, of no byte for a null body. *)
Definition body_text {host : Host} (r : Response.t) : string :=
  TextDecoder_decode (body_bytes r).

(** ** Scripted hosts

    Closed instances of the interface, for running the client on concrete
    inputs: the network answers by a fixed rule, the parser knows a few
    texts, the file system is a table of files, and the texts are ASCII. *)

Definition dquote : string := String (ascii_of_nat 34) EmptyString.

Definition bytes (s : string) : list byte := list_byte_of_string s.

(** [{"richmenus":[]}] and [{"message":"bad"}] as texts. *)
Definition text_richmenus_empty : string :=
  "{" ++ dquote ++ "richmenus" ++ dquote ++ ":[]}".
Definition text_message_bad : string :=
  "{" ++ dquote ++ "message" ++ dquote ++ ":" ++ dquote ++ "bad" ++ dquote ++ "}".

(** The decoder on well-formed input: the bytes as they are, after a
    leading byte order mark (EF BB BF). *)
Definition sample_decode (b : list byte) : string :=
  match b with
  | b1 :: b2 :: b3 :: rest =>
      if Byte.eqb b1 xef && Byte.eqb b2 xbb && Byte.eqb b3 xbf
      then string_of_list_byte rest
      else string_of_list_byte b
  | _ => string_of_list_byte b
  end.

(** [substring] on a text of one-byte characters. *)
Definition sample_substring (s : string) (start stop : nat) : string :=
  String.substring start (stop - start) s.

Definition sample_parse (text : string) : option Json :=
  if String.eqb text "{}" then Some (JObj [])
  else if String.eqb text "[]" then Some (JArr [])
  else if String.eqb text "null" then Some JNull
  else if String.eqb text text_richmenus_empty
       then Some (JObj [("richmenus", JArr [])])
  else if String.eqb text text_message_bad
       then Some (JObj [("message", JStr "bad")])
  else None.

(** The text from the last dot on (paths of the scripted file system have
    no directory part). *)
Fixpoint sample_extname (p : string) : string :=
  match p with
  | EmptyString => ""
  | String c rest =>
      match sample_extname rest with
      | EmptyString => if Ascii.eqb c "." then p else ""
      | later => later
      end
  end.

Definition scripted_host
    (net : list Event -> string -> RequestInit.t -> Result HttpReply)
    (files : list (string * Buffer)) : Host := {|
  network := net;
  TextDecoder_decode := sample_decode;
  String_substring := sample_substring;
  JSON_parse := sample_parse;
  JSON_stringify := fun _ => "{}";
  Number_toString := fun _ => "0";
  String_toLowerCase := fun s => s;
  fs_existsSync := fun p => match assoc p files with Some _ => true | None => false end;
  fs_readFileSync := fun p => match assoc p files with
                              | Some b => Return b
                              | None => Throw (HostError "ENOENT")
                              end;
  path_resolve := fun p => p;
  path_extname := sample_extname;
  Number_toFixed := fun _ _ => "1.00"
|}.

(** A network that gives the same reply to every request. *)
Definition always_reply (reply : HttpReply)
    : list Event -> string -> RequestInit.t -> Result HttpReply :=
  fun _ _ _ => Return reply.

Definition plain_reply (status : Z) (text : string) : HttpReply :=
  {| reply_status := status;
     reply_headers := [("content-type", "text/plain")];
     reply_body := Some (bytes text) |}.

Definition json_reply (status : Z) (text : string) : HttpReply :=
  {| reply_status := status;
     reply_headers := [("content-type", "application/json; charset=utf-8")];
     reply_body := Some (bytes text) |}.

(** The host whose network gives [reply] to every request, with no file. *)
Definition host_replying (reply : HttpReply) : Host :=
  scripted_host (always_reply reply) [].

(** A buffer of 1,048,577 bytes, one more than the upload ceiling. *)
Definition big_buffer : Buffer := repeat x00 (N.to_nat 1048577).

(** A world with a usable credential and nothing done yet. *)
Definition signed_in : World := {| channelAccessToken := "token-1"; trace := [] |}.

(** A world whose credential was never set. *)
Definition signed_out : World := {| channelAccessToken := ""; trace := [] |}.

(** A network that gives [first] to the first [n] requests and [later] to
    every request after them. *)
Definition reply_after (n : nat) (first later : HttpReply)
    : list Event -> string -> RequestInit.t -> Result HttpReply :=
  fun history _ _ =>
    if (count_fetch history <? n)%nat then Return first else Return later.

(** A network on which every request fails with [e]. *)
Definition always_failing (e : Exn)
    : list Event -> string -> RequestInit.t -> Result HttpReply :=
  fun _ _ _ => Throw e.

(** The sum of a list of numbers. *)
Definition sum_Z (l : list Z) : Z := fold_right Z.add 0 l.

(** A host on which every path exists and no file can be read. *)
Definition unreadable_host : Host := {|
  network := always_reply (plain_reply 200 "{}");
  TextDecoder_decode := sample_decode;
  String_substring := sample_substring;
  JSON_parse := sample_parse;
  JSON_stringify := fun _ => "{}";
  Number_toString := fun _ => "0";
  String_toLowerCase := fun s => s;
  fs_existsSync := fun _ => true;
  fs_readFileSync := fun _ => Throw (HostError "EISDIR");
  path_resolve := fun p => p;
  path_extname := sample_extname;
  Number_toFixed := fun _ _ => "1.00"
|}.

(** [{"richmenus":null}] as a text, and a host whose parser knows it. *)
Definition text_richmenus_null : string :=
  "{" ++ dquote ++ "richmenus" ++ dquote ++ ":null}".

Definition host_with_null_field : Host := {|
  network := always_reply (json_reply 200 text_richmenus_null);
  TextDecoder_decode := sample_decode;
  String_substring := sample_substring;
  JSON_parse := fun text =>
    if String.eqb text text_richmenus_null
    then Some (JObj [("richmenus", JNull)])
    else sample_parse text;
  JSON_stringify := fun _ => "{}";
  Number_toString := fun _ => "0";
  String_toLowerCase := fun s => s;
  fs_existsSync := fun _ => false;
  fs_readFileSync := fun _ => Throw (HostError "ENOENT");
  path_resolve := fun p => p;
  path_extname := sample_extname;
  Number_toFixed := fun _ _ => "1.00"
|}.



(** ** richMenuClient.js *)

Section Client.
Context {host : Host}.
Variable cfg : Config.

(** [getAccessToken()] of config.js. *)
Definition getAccessToken : Run string :=
  fun w => (Return (channelAccessToken w), w).

(** [setAccessToken(token)] of config.js. *)
Definition setAccessToken (token : string) : Run unit :=
  fun w => (Return tt, {| channelAccessToken := token; trace := trace w |}).

(** [!token || token === 'your_channel_access_token_here'] on a string. *)
Definition token_unset (token : string) : bool :=
  String.eqb token "" || String.eqb token "your_channel_access_token_here".

Definition ensureToken : Run string :=
  token <- getAccessToken ;;
  if token_unset token
  then throw (RichMenuApiError
                "尚未設定 Channel Access Token。請先透過環境變數或 setAccessToken() 設定。"
                401 default_details)
  else ret token.

(** ToString, as a template literal applies it to a JSON value. *)
Fixpoint JS_toString (v : Json) : string :=
  match v with
  | JNull => "null"
  | JBool true => "true"
  | JBool false => "false"
  | JNum q => Number_toString q
  | JStr s => s
  | JArr items =>
      (fix join (l : list Json) : string :=
         match l with
         | [] => ""
         | x :: rest =>
             let sx := match x with JNull => "" | _ => JS_toString x end in
             match rest with
             | [] => sx
             | _ :: _ => sx ++ "," ++ join rest
             end
         end) items
  | JObj _ => "[object Object]"
  end.

Definition template (v : option Json) : string :=
  match v with
  | None => "undefined"
  | Some j => JS_toString j
  end.

(** The [messages] table of [getErrorMessage], keyed by status. *)
Definition messages (detail : string) : list (Z * string) :=
  [ (400, "請求參數錯誤：" ++ detail);
    (401, "Channel Access Token 無效或已過期，請重新取得。");
    (403, "權限不足，請確認 Token 的權限設定。");
    (404, "找不到指定的資源（Rich Menu 或使用者）。");
    (409, "資源衝突，可能已存在相同的別名。");
    (429, "API 呼叫頻率超限，請稍後再試。") ].

Fixpoint lookup_status (status : Z) (table : list (Z * string)) : option string :=
  match table with
  | [] => None
  | (k, m) :: rest => if status =? k then Some m else lookup_status status rest
  end.

Definition fallback_message (status : Z) (detail : string) : string :=
  "API 呼叫失敗 (HTTP " ++ Z_toString status ++ ")：" ++ detail.

(** [body?.message || body?.error?.message || JSON.stringify(body)], as the
    template literals render it. *)
Definition error_detail (body : Json) : string :=
  template
    (js_or (opt_member (Some body) "message")
       (js_or (opt_member (opt_member (Some body) "error") "message")
          (Some (JStr (JSON_stringify body))))).

Definition getErrorMessage (status : Z) (body : Json) : string :=
  let detail := error_detail body in
  match lookup_status status (messages detail) with
  | Some m => if String.eqb m "" then fallback_message status detail else m
  | None => fallback_message status detail
  end.

(** [delay(ms)]: the sleep is an event of the trace. *)
Definition delay (ms : Z) : Run unit := emit (EvDelay ms).

(** [console.warn] of the retry notice, with the two interpolated numbers. *)
Definition console_warn (waitTime : Z) (nth : nat) : Run unit :=
  emit (EvWarn waitTime nth).

(** The global [fetch]: one transport call, recorded in the trace. *)
Definition fetch (url : string) (options : RequestInit.t) : Run Response.t :=
  fun w =>
    let w' := {| channelAccessToken := channelAccessToken w;
                 trace := trace w ++ [EvFetch url options] |} in
    match network (trace w) url options with
    | Return reply => (Return (Response.of_reply reply), w')
    | Throw e => (Throw e, w')
    end.

Equations? fetchWithRetry (url : string) (options : RequestInit.t)
    (retryCount : nat) (w : World) : Result Response.t * World
    by wf (MAX_RETRIES cfg - retryCount)%nat lt :=
  fetchWithRetry url options retryCount w with fetch url options w => {
    | (Throw e, w1) => (Throw e, w1)
    | (Return response, w1)
        with Bool.bool_dec
               ((Response.status response =? 429)
                && (retryCount <? MAX_RETRIES cfg)%nat) true => {
        | left _ =>
            let waitTime :=
              RETRY_BASE_DELAY_MS cfg * 2 ^ Z.of_nat retryCount in
            let w2 := snd (console_warn waitTime (retryCount + 1) w1) in
            let w3 := snd (delay waitTime w2) in
            fetchWithRetry url options (retryCount + 1) w3
        | right _ => (Return response, w1) } }.
Proof.
  apply andb_prop in e as [_ Hlt]. apply Nat.ltb_lt in Hlt. lia.
Qed.

(** *** Reading a response body (Fetch standard, "consume body")

    A null body reads as empty; a body that was already read makes every
    further read reject with a [TypeError]. [text()] and [json()] decode
    the bytes read as UTF-8. *)
Definition consume_body (r : Response.t) : Result (list byte) * Response.t :=
  match Response.body r with
  | None => (Return [], r)
  | Some bytes =>
      if Response.bodyUsed r
      then (Throw (TypeError "Body is unusable: Body has already been read"), r)
      else (Return bytes,
            Response.mk (Response.status r) (Response.headers r) (Response.body r) true)
  end.

Definition Response_arrayBuffer (r : Response.t) : Result Buffer * Response.t :=
  consume_body r.

(** [response.text()]. *)
Definition Response_text (r : Response.t) : Result string * Response.t :=
  match consume_body r with
  | (Return bytes, r') => (Return (TextDecoder_decode bytes), r')
  | (Throw e, r') => (Throw e, r')
  end.

(** [response.json()]: the body is read in full, decoded, then parsed. *)
Definition Response_json (r : Response.t) : Result Json * Response.t :=
  match consume_body r with
  | (Return bytes, r') =>
      match JSON_parse (TextDecoder_decode bytes) with
      | Some j => (Return j, r')
      | None => (Throw (SyntaxError "Unexpected token in JSON"), r')
      end
  | (Throw e, r') => (Throw e, r')
  end.

(** [{ success: true }]. *)
Definition success_marker : Json := JObj [("success", JBool true)].

(** [{ success: true, raw: text }]. *)
Definition raw_wrapper (text : string) : Json :=
  JObj [("success", JBool true); ("raw", JStr text)].

(** The [errorBody] of [apiCall]: [response.json()], and in its [catch]
    [{ message: await response.text().catch(() => ...) }] on the same
    response object. *)
Definition read_errorBody (response : Response.t) : Json :=
  match Response_json response with
  | (Return j, _) => j
  | (Throw _, response1) =>
      JObj [("message",
             JStr match Response_text response1 with
                  | (Return text, _) => text
                  | (Throw _, _) => "無法解析錯誤內容"
                  end)]
  end.

(** [response.headers.get('content-type') || '']. *)
Definition contentType_of (response : Response.t) : string :=
  match Response.headers_get response "content-type" with
  | Some ct => ct
  | None => ""
  end.

(** [{ ...options, headers: { ...defaultHeaders, ...options.headers } }]. *)
Definition mergedOptions (token : string) (options : RequestInit.t) : RequestInit.t :=
  let defaultHeaders := [("Authorization", "Bearer " ++ token)] in
  RequestInit.mk (RequestInit.method options)
    (obj_spread defaultHeaders (RequestInit.headers options))
    (RequestInit.body options).

(** The default parameter [baseUrl = config.API_BASE_URL]: [None] is an
    omitted argument. *)
Definition baseUrl_or_default (baseUrl : option string) : string :=
  match baseUrl with Some b => b | None => API_BASE_URL cfg end.

Definition apiCall (endpoint : string) (options : RequestInit.t)
    (baseUrl : option string) : Run Json :=
  token <- ensureToken ;;
  let url := baseUrl_or_default baseUrl ++ endpoint in
  response <- fetchWithRetry url (mergedOptions token options) 0 ;;
  if Response.status response =? 204 then ret success_marker
  else
    let contentType := contentType_of response in
    if Response.ok response then
      if includes contentType "application/json"
      then lift (fst (Response_json response))
      else
        text <- lift (fst (Response_text response)) ;;
        if String.eqb text "{}" || String.eqb text "" then ret success_marker
        else match JSON_parse text with
             | Some data => ret data
             | None => ret (raw_wrapper text)
             end
    else
      let errorBody := read_errorBody response in
      throw (RichMenuApiError
               (getErrorMessage (Response.status response) errorBody)
               (Response.status response) errorBody).

(** *** Exported operations *)

Definition GET : RequestInit.t := RequestInit.empty.
Definition POST : RequestInit.t := RequestInit.mk (Some "POST") [] None.
Definition DELETE : RequestInit.t := RequestInit.mk (Some "DELETE") [] None.
Definition POST_json (data : Json) : RequestInit.t :=
  RequestInit.mk (Some "POST") [("Content-Type", "application/json")]
    (Some (BodyText (JSON_stringify data))).

(** [value.key] on the result of [apiCall]: a [TypeError] on [null]. *)
Definition member (value : Json) (key : string) : Run (option Json) :=
  match value with
  | JNull => throw (TypeError "Cannot read properties of null")
  | _ => ret (opt_member (Some value) key)
  end.

Definition listRichMenus : Run (option Json) :=
  result <- apiCall "/v2/bot/richmenu/list" GET None ;;
  richmenus <- member result "richmenus" ;;
  ret (js_or richmenus (Some (JArr []))).

Definition getRichMenu (richMenuId : string) : Run Json :=
  apiCall ("/v2/bot/richmenu/" ++ richMenuId) GET None.

Definition createRichMenu (richMenuData : Json) : Run Json :=
  apiCall "/v2/bot/richmenu" (POST_json richMenuData) None.

Definition validateRichMenu (richMenuData : Json) : Run Json :=
  apiCall "/v2/bot/richmenu/validate" (POST_json richMenuData) None.

Definition deleteRichMenu (richMenuId : string) : Run Json :=
  apiCall ("/v2/bot/richmenu/" ++ richMenuId) DELETE None.

(** The [imageInput] argument: a Buffer, a string, or any other value. *)
Inductive ImageInput : Type :=
| InputBuffer (b : Buffer)
| InputString (path : string)
| InputOther.

(** The default parameter [contentType = 'image/png']: [None] is an omitted
    argument. *)
Definition contentType_or_default (contentType : option string) : string :=
  match contentType with Some ct => ct | None => "image/png" end.

(** The MIME type found from the extension of a file path; [contentType]
    stays as it is for any other extension. *)
Definition detect_contentType (absolutePath contentType : string) : string :=
  let ext := String_toLowerCase (path_extname absolutePath) in
  if String.eqb ext ".jpg" || String.eqb ext ".jpeg" then "image/jpeg"
  else if String.eqb ext ".png" then "image/png"
  else contentType.

Definition uploadRichMenuImage (richMenuId : string) (imageInput : ImageInput)
    (contentType : option string) : Run Json :=
  let contentType := contentType_or_default contentType in
  loaded <-
    match imageInput with
    | InputBuffer b => ret (b, contentType)
    | InputString p =>
        let absolutePath := path_resolve p in
        if negb (fs_existsSync absolutePath)
        then throw (RichMenuApiError ("找不到圖片檔案：" ++ absolutePath)
                      400 default_details)
        else
          imageBuffer <- lift (fs_readFileSync absolutePath) ;;
          ret (imageBuffer, detect_contentType absolutePath contentType)
    | InputOther =>
        throw (RichMenuApiError "imageInput 必須為檔案路徑（string）或 Buffer"
                 400 default_details)
    end ;;
  let imageBuffer : Buffer := fst loaded in
  let contentType : string := snd loaded in
  if 1024 * 1024 <? Z.of_nat (length imageBuffer)
  then throw (RichMenuApiError
                ("圖片檔案大小超過 1MB 限制（目前 "
                 ++ Number_toFixed (Z.of_nat (length imageBuffer) # 1048576) 2
                 ++ " MB）")
                400 default_details)
  else
    apiCall ("/v2/bot/richmenu/" ++ richMenuId ++ "/content")
      (RequestInit.mk (Some "POST") [("Content-Type", contentType)]
         (Some (BodyBuffer imageBuffer)))
      (Some (DATA_API_BASE_URL cfg)).

Definition downloadRichMenuImage (richMenuId : string) : Run Buffer :=
  token <- ensureToken ;;
  let url := DATA_API_BASE_URL cfg ++ "/v2/bot/richmenu/" ++ richMenuId ++ "/content" in
  response <-
    fetchWithRetry url
      (RequestInit.mk None [("Authorization", "Bearer " ++ token)] None) 0 ;;
  if negb (Response.ok response)
  then throw (RichMenuApiError
                ("無法下載圖片（HTTP " ++ Z_toString (Response.status response) ++ "）")
                (Response.status response) default_details)
  else
    arrayBuffer <- lift (fst (Response_arrayBuffer response)) ;;
    ret arrayBuffer.

Definition setDefaultRichMenu (richMenuId : string) : Run Json :=
  apiCall ("/v2/bot/user/all/richmenu/" ++ richMenuId) POST None.

Definition getDefaultRichMenu : Run Json :=
  apiCall "/v2/bot/user/all/richmenu" GET None.

Definition cancelDefaultRichMenu : Run Json :=
  apiCall "/v2/bot/user/all/richmenu" DELETE None.

Definition linkRichMenuToUser (userId richMenuId : string) : Run Json :=
  apiCall ("/v2/bot/user/" ++ userId ++ "/richmenu/" ++ richMenuId) POST None.

Definition unlinkRichMenuFromUser (userId : string) : Run Json :=
  apiCall ("/v2/bot/user/" ++ userId ++ "/richmenu") DELETE None.

Definition getUserRichMenu (userId : string) : Run Json :=
  apiCall ("/v2/bot/user/" ++ userId ++ "/richmenu") GET None.

Definition bulkLinkRichMenu (richMenuId : string) (userIds : list string) : Run Json :=
  if (500 <? length userIds)%nat
  then throw (RichMenuApiError "批量綁定上限為 500 個使用者" 400 default_details)
  else
    apiCall "/v2/bot/richmenu/bulk/link"
      (POST_json (JObj [("richMenuId", JStr richMenuId);
                        ("userIds", JArr (map JStr userIds))]))
      None.

Definition bulkUnlinkRichMenu (userIds : list string) : Run Json :=
  if (500 <? length userIds)%nat
  then throw (RichMenuApiError "批量解除綁定上限為 500 個使用者" 400 default_details)
  else
    apiCall "/v2/bot/richmenu/bulk/unlink"
      (POST_json (JObj [("userIds", JArr (map JStr userIds))]))
      None.

Definition createRichMenuAlias (richMenuAliasId richMenuId : string) : Run Json :=
  apiCall "/v2/bot/richmenu/alias"
    (POST_json (JObj [("richMenuAliasId", JStr richMenuAliasId);
                      ("richMenuId", JStr richMenuId)]))
    None.

Definition updateRichMenuAlias (richMenuAliasId richMenuId : string) : Run Json :=
  apiCall ("/v2/bot/richmenu/alias/" ++ richMenuAliasId)
    (POST_json (JObj [("richMenuId", JStr richMenuId)]))
    None.

Definition getRichMenuAlias (richMenuAliasId : string) : Run Json :=
  apiCall ("/v2/bot/richmenu/alias/" ++ richMenuAliasId) GET None.

Definition deleteRichMenuAlias (richMenuAliasId : string) : Run Json :=
  apiCall ("/v2/bot/richmenu/alias/" ++ richMenuAliasId) DELETE None.

Definition listRichMenuAliases : Run (option Json) :=
  result <- apiCall "/v2/bot/richmenu/alias/list" GET None ;;
  aliases <- member result "aliases" ;;
  ret (js_or aliases (Some (JArr []))).

(** *** The module's export list, as one type of calls *)

Inductive Op : Type :=
| OpListRichMenus
| OpGetRichMenu (richMenuId : string)
| OpCreateRichMenu (richMenuData : Json)
| OpValidateRichMenu (richMenuData : Json)
| OpDeleteRichMenu (richMenuId : string)
| OpUploadRichMenuImage (richMenuId : string) (imageInput : ImageInput)
    (contentType : option string)
| OpDownloadRichMenuImage (richMenuId : string)
| OpSetDefaultRichMenu (richMenuId : string)
| OpGetDefaultRichMenu
| OpCancelDefaultRichMenu
| OpLinkRichMenuToUser (userId richMenuId : string)
| OpUnlinkRichMenuFromUser (userId : string)
| OpGetUserRichMenu (userId : string)
| OpBulkLinkRichMenu (richMenuId : string) (userIds : list string)
| OpBulkUnlinkRichMenu (userIds : list string)
| OpCreateRichMenuAlias (richMenuAliasId richMenuId : string)
| OpUpdateRichMenuAlias (richMenuAliasId richMenuId : string)
| OpGetRichMenuAlias (richMenuAliasId : string)
| OpDeleteRichMenuAlias (richMenuAliasId : string)
| OpListRichMenuAliases.

(** What a call resolves with. *)
Inductive Value : Type :=
| VJson (v : option Json)
| VBuffer (b : Buffer).

Definition as_json (c : Run Json) : Run Value :=
  v <- c ;; ret (VJson (Some v)).

Definition as_value (c : Run (option Json)) : Run Value :=
  v <- c ;; ret (VJson v).

Definition as_buffer (c : Run Buffer) : Run Value :=
  b <- c ;; ret (VBuffer b).

Definition call (op : Op) : Run Value :=
  match op with
  | OpListRichMenus => as_value listRichMenus
  | OpGetRichMenu i => as_json (getRichMenu i)
  | OpCreateRichMenu d => as_json (createRichMenu d)
  | OpValidateRichMenu d => as_json (validateRichMenu d)
  | OpDeleteRichMenu i => as_json (deleteRichMenu i)
  | OpUploadRichMenuImage i input ct => as_json (uploadRichMenuImage i input ct)
  | OpDownloadRichMenuImage i => as_buffer (downloadRichMenuImage i)
  | OpSetDefaultRichMenu i => as_json (setDefaultRichMenu i)
  | OpGetDefaultRichMenu => as_json getDefaultRichMenu
  | OpCancelDefaultRichMenu => as_json cancelDefaultRichMenu
  | OpLinkRichMenuToUser u i => as_json (linkRichMenuToUser u i)
  | OpUnlinkRichMenuFromUser u => as_json (unlinkRichMenuFromUser u)
  | OpGetUserRichMenu u => as_json (getUserRichMenu u)
  | OpBulkLinkRichMenu i us => as_json (bulkLinkRichMenu i us)
  | OpBulkUnlinkRichMenu us => as_json (bulkUnlinkRichMenu us)
  | OpCreateRichMenuAlias a i => as_json (createRichMenuAlias a i)
  | OpUpdateRichMenuAlias a i => as_json (updateRichMenuAlias a i)
  | OpGetRichMenuAlias a => as_json (getRichMenuAlias a)
  | OpDeleteRichMenuAlias a => as_json (deleteRichMenuAlias a)
  | OpListRichMenuAliases => as_value listRichMenuAliases
  end.

Definition is_image_op (op : Op) : bool :=
  match op with
  | OpUploadRichMenuImage _ _ _ | OpDownloadRichMenuImage _ => true
  | _ => false
  end.

(** *** What an operation checks before it reaches [apiCall] *)

Inductive LocalOutcome : Type :=
| Accepted      (* the input passes: the operation goes on to [apiCall] *)
| Rejected      (* a local validation error, status 400 *)
| ReadFailed.   (* [fs.readFileSync] threw *)

(** [imageBuffer.length > 1024 * 1024]. *)
Definition oversized (b : Buffer) : bool := 1024 * 1024 <? Z.of_nat (length b).

Definition local_validation (op : Op) : LocalOutcome :=
  match op with
  | OpUploadRichMenuImage _ (InputBuffer b) _ =>
      if oversized b then Rejected else Accepted
  | OpUploadRichMenuImage _ (InputString p) _ =>
      if negb (fs_existsSync (path_resolve p)) then Rejected
      else match fs_readFileSync (path_resolve p) with
           | Return b => if oversized b then Rejected else Accepted
           | Throw _ => ReadFailed
           end
  | OpUploadRichMenuImage _ InputOther _ => Rejected
  | OpBulkLinkRichMenu _ userIds | OpBulkUnlinkRichMenu userIds =>
      if (500 <? length userIds)%nat then Rejected else Accepted
  | _ => Accepted
  end.

(** The base address an operation is meant to use. *)
Definition base_url_of (op : Op) : string :=
  if is_image_op op then DATA_API_BASE_URL cfg else API_BASE_URL cfg.

(** The error of the credential gate. *)
Definition unauthenticated : Exn :=
  RichMenuApiError
    "尚未設定 Channel Access Token。請先透過環境變數或 setAccessToken() 設定。"
    401 default_details.

(** Every transport call among [events] goes to an address under [base]. *)
Definition only_requests_to (base : string) (events : list Event) : Prop :=
  forall url init,
    In (url, init) (requests events) -> exists path, url = base ++ path.

(** The credential gate read as holding for every operation and every
    input: with the credential unset, the call throws status 401. *)
Definition gate_on_every_input : Prop :=
  forall op w,
    token_unset (channelAccessToken w) = true ->
    exists message details,
      call op w = (Throw (RichMenuApiError message 401 details), w).

(** The request [downloadRichMenuImage] sends. *)
Definition download_url (richMenuId : string) : string :=
  DATA_API_BASE_URL cfg ++ "/v2/bot/richmenu/" ++ richMenuId ++ "/content".
Definition download_options (token : string) : RequestInit.t :=
  RequestInit.mk None [("Authorization", "Bearer " ++ token)] None.

(** The download error read as carrying what [apiCall] puts in [details]:
    the error body the remote service sent. *)
Definition download_error_carries_remote_body : Prop :=
  forall richMenuId w response w',
    token_unset (channelAccessToken w) = false ->
    fetchWithRetry (download_url richMenuId)
      (download_options (channelAccessToken w)) 0 w = (Return response, w') ->
    Response.ok response = false ->
    exists message,
      downloadRichMenuImage richMenuId w =
      (Throw (RichMenuApiError message (Response.status response)
                (read_errorBody response)), w').



(** The first [k] replies to the call's request, from attempt [start] on,
    are 429. *)
Definition limited_for (url : string) (options : RequestInit.t) (w : World)
    (start k : nat) : Prop :=
  forall j,
    (j < k)%nat ->
    exists r,
      network
        (trace w ++ retry_rounds (RETRY_BASE_DELAY_MS cfg) url options start j)
        url options = Return r /\
      reply_status r = 429.

(** The body shared by [listRichMenus] and [listRichMenuAliases]:
    [(await apiCall(endpoint)).key || []]. *)
Definition list_unwrap (endpoint key : string) : Run (option Json) :=
  result <- apiCall endpoint GET None ;;
  field <- member result key ;;
  ret (js_or field (Some (JArr []))).



(** An error that is not the module's typed error. *)
Definition untyped (e : Exn) : Prop :=
  match e with
  | RichMenuApiError _ _ _ => False
  | _ => True
  end.

(** What the host rejects or throws with is never a [RichMenuApiError]: the
    class belongs to the client module. *)
Definition host_errors_untyped : Prop :=
  (forall history url init e, network history url init = Throw e -> untyped e) /\
  (forall path e, fs_readFileSync path = Throw e -> untyped e).

(** [200 <= status <= 299]. *)
Definition is_2xx (status : Z) : bool := (200 <=? status) && (status <=? 299).

(** ** server.js: the routes of the Web UI back end

    A route handler is modelled by what it answers to a request that is
    not conditional: the status given to [res.status] (200 when the handler
    only calls [res.json] or [res.send]) and the body that is sent with it.
    The handlers run under [asyncHandler], which hands a rejection to the
    error-handling middleware. The console output of the middleware and the
    static and template routes are left out. *)

Inductive ResBody : Type :=
| ResJson (body : Json)                           (* res.json(body) *)
| ResSend (contentType : string) (b : Buffer)     (* res.set('Content-Type', ..); res.send(b) *)
| ResEmpty.                                       (* no body, no content type *)

Record HttpAnswer : Type := {
  answer_status : Z;
  answer_body : ResBody
}.

(** What can reach the error-handling middleware: an error thrown in a route
    handler, an error of multer with its [code], or a plain [Error]. *)
Inductive ServerError : Type :=
| HandlerError (e : Exn)
| MulterError (code : string) (message : string)
| PlainError (message : string).

(** [err.message] of an error of the client. *)
Definition Exn_message (e : Exn) : string :=
  match e with
  | RichMenuApiError m _ _ => m
  | SyntaxError m => m
  | TypeError m => m
  | HostError m => m
  end.

(** The statuses that are sent without a body, whatever the handler gave
    to [res.json]: the informational ones, 204, 205 and 304. *)
Definition bodiless (status : Z) : bool :=
  ((100 <=? status) && (status <=? 199))
  || (status =? 204) || (status =? 205) || (status =? 304).

(** [res.status(status).json(body)]. *)
Definition json_answer (status : Z) (body : Json) : HttpAnswer :=
  {| answer_status := status;
     answer_body := if bodiless status then ResEmpty else ResJson body |}.

(** [{ success: true, data }]; a [data] that is undefined is left out by
    [res.json]. *)
Definition success_data (data : option Json) : Json :=
  match data with
  | Some v => JObj [("success", JBool true); ("data", v)]
  | None => JObj [("success", JBool true)]
  end.

(** [{ success: true, message }]. *)
Definition success_message (message : string) : Json :=
  JObj [("success", JBool true); ("message", JStr message)].

(** [err.message] and [err.code]; the errors of the client and a plain
    [Error] have no [code] that multer uses. *)
Definition ServerError_message (err : ServerError) : string :=
  match err with
  | HandlerError e => Exn_message e
  | MulterError _ message => message
  | PlainError message => message
  end.

Definition ServerError_code (err : ServerError) : option string :=
  match err with
  | MulterError code _ => Some code
  | _ => None
  end.

(** [res.status(err.statusCode || 500).json({ success: false, error: { code,
    message, details } })]: the answer to a typed error. *)
Definition typed_error_answer (message : string) (statusCode : Z) (details : Json)
    : HttpAnswer :=
  json_answer (if statusCode =? 0 then 500 else statusCode)
    (JObj [("success", JBool false);
           ("error", JObj [("code", JNum (inject_Z statusCode));
                           ("message", JStr message);
                           ("details", details)])]).

(** The last [app.use((err, _req, res, _next) => ...)]. *)
Definition errorMiddleware (err : ServerError) : HttpAnswer :=
  match err with
  | HandlerError (RichMenuApiError message statusCode details) =>
      typed_error_answer message statusCode details
  | _ =>
      let limit_file_size :=
        match ServerError_code err with
        | Some code => String.eqb code "LIMIT_FILE_SIZE"
        | None => false
        end in
      if limit_file_size
      then json_answer 400
             (JObj [("success", JBool false);
                    ("error", JObj [("message", JStr "圖片檔案超過 1MB 限制")])])
      else json_answer 500
             (JObj [("success", JBool false);
                    ("error",
                     JObj [("message",
                            JStr (if String.eqb (ServerError_message err) ""
                                  then "伺服器內部錯誤"
                                  else ServerError_message err))])])
  end.

(** [req.file], as multer's memory storage leaves it. *)
Record UploadedFile : Type := {
  mimetype : string;
  buffer : Buffer
}.

(** The [fileFilter] of the multer instance: [cb(null, true)] or
    [cb(new Error(...))]. *)
Inductive FilterVerdict : Type :=
| Keep
| Refuse (message : string).

Definition fileFilter (file_mimetype : string) : FilterVerdict :=
  let allowed := ["image/png"; "image/jpeg"] in
  if existsb (String.eqb file_mimetype) allowed then Keep
  else Refuse "僅支援 PNG 或 JPEG 格式".

(** The routes, with what each handler reads from the request. The
    [token] of [POST /api/token] is absent or a string; the two fields read
    by [POST /api/aliases] are strings. *)
Inductive Route : Type :=
| POST_token (token : option string)
| GET_token_status
| GET_richmenus
| GET_richmenus_id (id : string)
| POST_richmenus (body : Json)
| POST_richmenus_validate (body : Json)
| DELETE_richmenus_id (id : string)
| POST_richmenus_id_image (id : string) (file : option UploadedFile)
| GET_richmenus_id_image (id : string)
| GET_default_richmenu
| POST_default_richmenu_id (id : string)
| DELETE_default_richmenu
| POST_users_richmenu (userId richMenuId : string)
| DELETE_users_richmenu (userId : string)
| GET_users_richmenu (userId : string)
| GET_aliases
| POST_aliases (richMenuAliasId richMenuId : string)
| DELETE_aliases_id (aliasId : string).

(** [try { data = await c } catch (err) { if (err.statusCode === 404) data =
    null else throw err }], then [res.json({ success: true, data })]. *)
Definition or_null_on_404 (c : Run Json) : Run HttpAnswer :=
  fun w =>
    match c w with
    | (Return result, w') => (Return (json_answer 200 (success_data (Some result))), w')
    | (Throw (RichMenuApiError message statusCode details), w') =>
        if statusCode =? 404
        then (Return (json_answer 200 (success_data (Some JNull))), w')
        else (Throw (RichMenuApiError message statusCode details), w')
    | (Throw e, w') => (Throw e, w')
    end.

(** The handler of each route. *)
Definition handler (route : Route) : Run HttpAnswer :=
  match route with
  | POST_token token =>
      match token with
      | Some t =>
          if String.eqb t "" || (JS_length t <? 10)%nat
          then ret (json_answer 400
                      (JObj [("success", JBool false);
                             ("error", JStr "Token 格式不正確")]))
          else (setAccessToken t ;;;
                ret (json_answer 200 (success_message "Token 已設定")))
      | None =>
          ret (json_answer 400
                 (JObj [("success", JBool false);
                        ("error", JStr "Token 格式不正確")]))
      end
  | GET_token_status =>
      token <- getAccessToken ;;
      let isSet :=
        if String.eqb token "" then JStr ""
        else if String.eqb token "your_channel_access_token_here" then JBool false
        else JBool (10 <? JS_length token)%nat in
      ret (json_answer 200
             (JObj [("isSet", isSet);
                    ("preview",
                     if truthy (Some isSet)
                     then JStr (String_substring token 0 20 ++ "...")
                     else JNull)]))
  | GET_richmenus =>
      menus <- listRichMenus ;;
      ret (json_answer 200 (success_data menus))
  | GET_richmenus_id id =>
      menu <- getRichMenu id ;;
      ret (json_answer 200 (success_data (Some menu)))
  | POST_richmenus body =>
      result <- createRichMenu body ;;
      ret (json_answer 201 (success_data (Some result)))
  | POST_richmenus_validate body =>
      validateRichMenu body ;;;
      ret (json_answer 200 (success_message "驗證通過"))
  | DELETE_richmenus_id id =>
      deleteRichMenu id ;;;
      ret (json_answer 200 (success_message "已刪除"))
  | POST_richmenus_id_image id file =>
      match file with
      | None =>
          ret (json_answer 400
                 (JObj [("success", JBool false);
                        ("error", JStr "未提供圖片檔案")]))
      | Some f =>
          uploadRichMenuImage id (InputBuffer (buffer f)) (Some (mimetype f)) ;;;
          ret (json_answer 200 (success_message "圖片已上傳"))
      end
  | GET_richmenus_id_image id =>
      imageBuffer <- downloadRichMenuImage id ;;
      ret {| answer_status := 200; answer_body := ResSend "image/png" imageBuffer |}
  | GET_default_richmenu => or_null_on_404 getDefaultRichMenu
  | POST_default_richmenu_id id =>
      setDefaultRichMenu id ;;;
      ret (json_answer 200 (success_message "已設定預設選單"))
  | DELETE_default_richmenu =>
      cancelDefaultRichMenu ;;;
      ret (json_answer 200 (success_message "已取消預設選單"))
  | POST_users_richmenu userId richMenuId =>
      linkRichMenuToUser userId richMenuId ;;;
      ret (json_answer 200 (success_message "已綁定"))
  | DELETE_users_richmenu userId =>
      unlinkRichMenuFromUser userId ;;;
      ret (json_answer 200 (success_message "已解除綁定"))
  | GET_users_richmenu userId => or_null_on_404 (getUserRichMenu userId)
  | GET_aliases =>
      aliases <- listRichMenuAliases ;;
      ret (json_answer 200 (success_data aliases))
  | POST_aliases richMenuAliasId richMenuId =>
      createRichMenuAlias richMenuAliasId richMenuId ;;;
      ret (json_answer 201 (success_message "別名已建立"))
  | DELETE_aliases_id aliasId =>
      deleteRichMenuAlias aliasId ;;;
      ret (json_answer 200 (success_message "別名已刪除"))
  end.

(** A request served: the handler under [asyncHandler], then the
    error-handling middleware for what it throws. *)
Definition serve (route : Route) (w : World) : HttpAnswer * World :=
  match handler route w with
  | (Return answer, w') => (answer, w')
  | (Throw e, w') => (errorMiddleware (HandlerError e), w')
  end.

(** The client operation a route calls, for the routes that call one. *)
Definition client_op (route : Route) : option Op :=
  match route with
  | POST_token _ | GET_token_status => None
  | GET_richmenus => Some OpListRichMenus
  | GET_richmenus_id id => Some (OpGetRichMenu id)
  | POST_richmenus body => Some (OpCreateRichMenu body)
  | POST_richmenus_validate body => Some (OpValidateRichMenu body)
  | DELETE_richmenus_id id => Some (OpDeleteRichMenu id)
  | POST_richmenus_id_image _ None => None
  | POST_richmenus_id_image id (Some f) =>
      Some (OpUploadRichMenuImage id (InputBuffer (buffer f)) (Some (mimetype f)))
  | GET_richmenus_id_image id => Some (OpDownloadRichMenuImage id)
  | GET_default_richmenu => Some OpGetDefaultRichMenu
  | POST_default_richmenu_id id => Some (OpSetDefaultRichMenu id)
  | DELETE_default_richmenu => Some OpCancelDefaultRichMenu
  | POST_users_richmenu userId richMenuId => Some (OpLinkRichMenuToUser userId richMenuId)
  | DELETE_users_richmenu userId => Some (OpUnlinkRichMenuFromUser userId)
  | GET_users_richmenu userId => Some (OpGetUserRichMenu userId)
  | GET_aliases => Some OpListRichMenuAliases
  | POST_aliases richMenuAliasId richMenuId =>
      Some (OpCreateRichMenuAlias richMenuAliasId richMenuId)
  | DELETE_aliases_id aliasId => Some (OpDeleteRichMenuAlias aliasId)
  end.

(** The two routes that answer a 404 of the remote service with
    [data: null]. *)
Definition maps_404_to_null (route : Route) : bool :=
  match route with
  | GET_default_richmenu | GET_users_richmenu _ => true
  | _ => false
  end.

(** ** cli.js: the check of the image path prompt *)

(** What a [validate] of a prompt returns: [true], or the message shown. *)
Inductive Validation : Type :=
| Valid
| Invalid (message : string).

(** The [validate] of the image path prompt in [actionUploadImage]. *)
Definition validate_imagePath (v : string) : Validation :=
  let p := path_resolve v in
  if negb (fs_existsSync p) then Invalid ("找不到檔案：" ++ p)
  else
    let ext := String_toLowerCase (path_extname p) in
    if negb (existsb (String.eqb ext) [".png"; ".jpg"; ".jpeg"])
    then Invalid "僅支援 PNG 或 JPEG 格式"
    else Valid.

(** The upload that [actionUploadImage] makes for an accepted answer:
    [uploadRichMenuImage(richMenuId, path.resolve(imagePath))]. *)
Definition cli_upload (richMenuId imagePath : string) : Run Json :=
  uploadRichMenuImage richMenuId (InputString (path_resolve imagePath)) None.

(** * Properties *)

(** ** Worlds and traces *)

Lemma push_nil (w : World) : push w [] = w.
Proof. destruct w; unfold push; cbn. now rewrite app_nil_r. Qed.

Lemma push_push (w : World) (a b : list Event) :
  push (push w a) b = push w (a ++ b).
Proof. unfold push; cbn. now rewrite app_assoc. Qed.

Lemma count_fetch_app (a b : list Event) :
  count_fetch (a ++ b) = (count_fetch a + count_fetch b)%nat.
Proof. unfold count_fetch. now rewrite filter_app, length_app. Qed.

Lemma delays_app (a b : list Event) : delays (a ++ b) = (delays a ++ delays b)%list.
Proof.
  induction a as [| e a IH]; [ reflexivity | ].
  destruct e; cbn; now rewrite IH.
Qed.

Lemma count_fetch_retry_rounds base url options start n :
  count_fetch (retry_rounds base url options start n) = n.
Proof.
  revert start. induction n as [| n IH]; intro start; [ reflexivity | ].
  unfold retry_rounds in *. cbn [seq flat_map].
  rewrite count_fetch_app, IH. reflexivity.
Qed.

Lemma delays_retry_rounds base url options start n :
  delays (retry_rounds base url options start n) =
  map (fun attempt => base * 2 ^ Z.of_nat attempt) (seq start n).
Proof.
  revert start. induction n as [| n IH]; intro start; [ reflexivity | ].
  unfold retry_rounds in *. cbn [seq flat_map map].
  rewrite delays_app, IH. reflexivity.
Qed.

(** ** The retrying transport *)

(** The recursion of [fetchWithRetry], read as the source writes it. *)
Lemma fetchWithRetry_step (url : string) (options : RequestInit.t)
    (retryCount : nat) (w : World) :
  fetchWithRetry url options retryCount w =
  (response <- fetch url options ;;
   if (Response.status response =? 429) && (retryCount <? MAX_RETRIES cfg)%nat
   then
     let waitTime := RETRY_BASE_DELAY_MS cfg * 2 ^ Z.of_nat retryCount in
     (console_warn waitTime (retryCount + 1) ;;;
      delay waitTime ;;;
      fetchWithRetry url options (retryCount + 1))
   else ret response) w.
Proof.
  rewrite fetchWithRetry_equation_1. unfold bind.
  destruct (fetch url options w) as [[response | e] w1]; cbn; [ | reflexivity ].
  destruct (bool_dec _ true) as [E | E]; cbn.
  - rewrite E. reflexivity.
  - apply not_true_is_false in E. rewrite E. reflexivity.
Qed.


Lemma fetch_reply url options w reply :
  network (trace w) url options = Return reply ->
  fetch url options w =
  (Return (Response.of_reply reply), push w [EvFetch url options]).
Proof. intro H. unfold fetch. now rewrite H. Qed.

(** A reply other than 429 is handed back after that one call. *)
Lemma fetchWithRetry_no_retry url options retryCount w reply :
  network (trace w) url options = Return reply ->
  reply_status reply <> 429 ->
  fetchWithRetry url options retryCount w =
  (Return (Response.of_reply reply), push w [EvFetch url options]).
Proof.
  intros Hnet Hst. rewrite fetchWithRetry_step. unfold bind.
  rewrite (fetch_reply _ _ _ _ Hnet). cbn [Response.status Response.of_reply].
  apply Z.eqb_neq in Hst. now rewrite Hst.
Qed.

(** Once the retries are used up, a 429 reply is handed back as it is. *)
Lemma fetchWithRetry_exhausted url options retryCount w reply :
  network (trace w) url options = Return reply ->
  (MAX_RETRIES cfg <= retryCount)%nat ->
  fetchWithRetry url options retryCount w =
  (Return (Response.of_reply reply), push w [EvFetch url options]).
Proof.
  intros Hnet Hmax. rewrite fetchWithRetry_step. unfold bind.
  rewrite (fetch_reply _ _ _ _ Hnet).
  apply Nat.ltb_ge in Hmax. rewrite Hmax, andb_false_r. reflexivity.
Qed.

(** A 429 reply with retries left: notice, sleep, next attempt. *)
Lemma fetchWithRetry_retry url options retryCount w reply :
  network (trace w) url options = Return reply ->
  reply_status reply = 429 ->
  (retryCount < MAX_RETRIES cfg)%nat ->
  fetchWithRetry url options retryCount w =
  fetchWithRetry url options (S retryCount)
    (push w (retry_round (RETRY_BASE_DELAY_MS cfg) url options retryCount)).
Proof.
  intros Hnet Hst Hlt. rewrite fetchWithRetry_step. unfold bind.
  rewrite (fetch_reply _ _ _ _ Hnet). cbn [Response.status Response.of_reply].
  rewrite Hst. apply Nat.ltb_lt in Hlt. rewrite Hlt. cbn [Z.eqb Pos.eqb andb].
  unfold console_warn, delay, emit, push, retry_round. cbn.
  rewrite Nat.add_1_r, <- !app_assoc. reflexivity.
Qed.


(** Every run of [fetchWithRetry] is some number [k] of rate-limited rounds
    followed by one last transport call, whose outcome is the result; the
    last reply is a 429 only when no retry is left. *)
Lemma fetchWithRetry_shape url options :
  forall n retryCount w,
    (MAX_RETRIES cfg - retryCount <= n)%nat ->
    exists k,
      (k <= MAX_RETRIES cfg - retryCount)%nat /\
      fetchWithRetry url options retryCount w =
      (final_result
         (network
            (trace w ++ retry_rounds (RETRY_BASE_DELAY_MS cfg) url options retryCount k)
            url options),
       push w (retry_rounds (RETRY_BASE_DELAY_MS cfg) url options retryCount k
               ++ [EvFetch url options])) /\
      (forall reply,
          network
            (trace w ++ retry_rounds (RETRY_BASE_DELAY_MS cfg) url options retryCount k)
            url options = Return reply ->
          reply_status reply = 429 ->
          k = (MAX_RETRIES cfg - retryCount)%nat).
Proof.
  assert (Hstop : forall retryCount w,
             (forall reply, network (trace w) url options = Return reply ->
                            reply_status reply = 429 ->
                            (MAX_RETRIES cfg <= retryCount)%nat) ->
             exists k,
               (k <= MAX_RETRIES cfg - retryCount)%nat /\
               fetchWithRetry url options retryCount w =
               (final_result
                  (network
                     (trace w ++ retry_rounds (RETRY_BASE_DELAY_MS cfg) url options
                                  retryCount k) url options),
                push w (retry_rounds (RETRY_BASE_DELAY_MS cfg) url options retryCount k
                        ++ [EvFetch url options])) /\
               (forall reply,
                   network
                     (trace w ++ retry_rounds (RETRY_BASE_DELAY_MS cfg) url options
                                  retryCount k) url options = Return reply ->
                   reply_status reply = 429 ->
                   k = (MAX_RETRIES cfg - retryCount)%nat)).
  { intros retryCount w Hlast. exists 0%nat.
    unfold retry_rounds. cbn [seq flat_map app]. rewrite app_nil_r.
    split; [ lia | split ].
    - destruct (network (trace w) url options) as [reply | e] eqn:Hnet.
      + destruct (Z.eq_dec (reply_status reply) 429) as [Hst | Hst].
        * apply fetchWithRetry_exhausted; [ assumption | ].
          now apply (Hlast reply).
        * now apply fetchWithRetry_no_retry.
      + rewrite fetchWithRetry_step. unfold bind, fetch. rewrite Hnet. reflexivity.
    - intros reply Hnet Hst. specialize (Hlast reply Hnet Hst). lia. }
  intro n. induction n as [| n IH]; intros retryCount w Hn.
  - apply Hstop. intros. lia.
  - destruct (network (trace w) url options) as [reply0 | e] eqn:Hnet0.
    + destruct (Z.eq_dec (reply_status reply0) 429) as [Hst0 | Hst0].
      * destruct (lt_dec retryCount (MAX_RETRIES cfg)) as [Hlt | Hge].
        -- destruct (IH (S retryCount)
                       (push w (retry_round (RETRY_BASE_DELAY_MS cfg) url options
                                  retryCount)))
             as [k [Hk [Hrun Hlast]]]; [ lia | ].
           exists (S k). unfold retry_rounds in *. cbn [seq flat_map].
           cbn [trace push] in Hrun, Hlast. rewrite <- app_assoc in Hrun, Hlast.
           split; [ lia | split ].
           ++ rewrite (fetchWithRetry_retry _ _ _ _ _ Hnet0 Hst0 Hlt).
              rewrite Hrun, push_push, <- app_assoc. reflexivity.
           ++ intros reply Hnet Hst. specialize (Hlast reply Hnet Hst). lia.
        -- apply Hstop. intros. lia.
      * apply Hstop. intros reply Hnet Hst. congruence.
    + apply Hstop. intros reply Hnet. congruence.
Qed.

(** A response handed back by [fetchWithRetry] is a fresh response object:
    its body was not read. *)
Lemma fetchWithRetry_fresh url options retryCount w response w' :
  fetchWithRetry url options retryCount w = (Return response, w') ->
  Response.bodyUsed response = false.
Proof.
  intro Hrun.
  destruct (fetchWithRetry_shape url options _ retryCount w (le_n _))
    as [k [_ [Heq _]]].
  rewrite Hrun in Heq. injection Heq as Hres _.
  destruct (network _ url options); cbn in Hres; [ | discriminate ].
  injection Hres as ->. reflexivity.
Qed.

(** [fetchWithRetry] only adds events, and leaves the credential alone. *)
Lemma fetchWithRetry_trace url options retryCount w :
  exists k,
    (k <= MAX_RETRIES cfg - retryCount)%nat /\
    snd (fetchWithRetry url options retryCount w) =
    push w (retry_rounds (RETRY_BASE_DELAY_MS cfg) url options retryCount k
            ++ [EvFetch url options]).
Proof.
  destruct (fetchWithRetry_shape url options _ retryCount w (le_n _))
    as [k [Hk [Heq _]]].
  exists k. split; [ assumption | ]. now rewrite Heq.
Qed.

(** ** The credential gate and the dispatch routine *)

Lemma ensureToken_ok w :
  token_unset (channelAccessToken w) = false ->
  ensureToken w = (Return (channelAccessToken w), w).
Proof. intro H. unfold ensureToken, bind, getAccessToken. now rewrite H. Qed.

Lemma ensureToken_unset w :
  token_unset (channelAccessToken w) = true ->
  ensureToken w =
  (Throw unauthenticated, w).
Proof. intro H. unfold ensureToken, bind, getAccessToken. now rewrite H. Qed.

Lemma apiCall_unset endpoint options baseUrl w :
  token_unset (channelAccessToken w) = true ->
  apiCall endpoint options baseUrl w =
  (Throw unauthenticated, w).
Proof. intro H. unfold apiCall, bind. now rewrite (ensureToken_unset _ H). Qed.

Lemma ok_204 (r : Response.t) : Response.status r = 204 -> Response.ok r = true.
Proof. intro H. unfold Response.ok. now rewrite H. Qed.

(** The error path of [apiCall]. *)
Lemma apiCall_error_response endpoint options baseUrl w response w' :
  token_unset (channelAccessToken w) = false ->
  fetchWithRetry (baseUrl_or_default baseUrl ++ endpoint)
    (mergedOptions (channelAccessToken w) options) 0 w = (Return response, w') ->
  Response.ok response = false ->
  apiCall endpoint options baseUrl w =
  (Throw (RichMenuApiError
            (getErrorMessage (Response.status response) (read_errorBody response))
            (Response.status response) (read_errorBody response)), w').
Proof.
  intros Htok Hrun Hok. unfold apiCall, bind.
  rewrite (ensureToken_ok _ Htok), Hrun.
  destruct (Response.status response =? 204) eqn:E.
  - apply Z.eqb_eq, ok_204 in E. congruence.
  - now rewrite Hok.
Qed.

Lemma getErrorMessage_429 body :
  getErrorMessage 429 body = "API 呼叫頻率超限，請稍後再試。".
Proof. reflexivity. Qed.


(** ** Local validation and the credential gate, operation by operation *)

Ltac open_call :=
  unfold call, as_json, as_value, as_buffer,
    listRichMenus, getRichMenu, createRichMenu, validateRichMenu, deleteRichMenu,
    downloadRichMenuImage, setDefaultRichMenu, getDefaultRichMenu,
    cancelDefaultRichMenu, linkRichMenuToUser, unlinkRichMenuFromUser,
    getUserRichMenu, bulkLinkRichMenu, bulkUnlinkRichMenu, createRichMenuAlias,
    updateRichMenuAlias, getRichMenuAlias, deleteRichMenuAlias,
    listRichMenuAliases, bind.

(** An oversized buffer is refused before [apiCall], whatever the credential. *)
Lemma upload_oversized richMenuId b contentType w :
  oversized b = true ->
  exists message,
    uploadRichMenuImage richMenuId (InputBuffer b) contentType w =
    (Throw (RichMenuApiError message 400 default_details), w).
Proof.
  intro H. unfold oversized in H. unfold uploadRichMenuImage, bind, ret.
  cbn [fst snd]. rewrite H. eexists. reflexivity.
Qed.

Lemma upload_buffer_accepted richMenuId b contentType w :
  oversized b = false ->
  uploadRichMenuImage richMenuId (InputBuffer b) contentType w =
  apiCall ("/v2/bot/richmenu/" ++ richMenuId ++ "/content")
    (RequestInit.mk (Some "POST")
       [("Content-Type", contentType_or_default contentType)]
       (Some (BodyBuffer b)))
    (Some (DATA_API_BASE_URL cfg)) w.
Proof.
  intro H. unfold oversized in H. unfold uploadRichMenuImage, bind, ret.
  cbn [fst snd]. rewrite H. reflexivity.
Qed.

Lemma upload_other richMenuId contentType w :
  uploadRichMenuImage richMenuId InputOther contentType w =
  (Throw (RichMenuApiError "imageInput 必須為檔案路徑（string）或 Buffer"
            400 default_details), w).
Proof. reflexivity. Qed.

Lemma upload_missing_file richMenuId p contentType w :
  fs_existsSync (path_resolve p) = false ->
  uploadRichMenuImage richMenuId (InputString p) contentType w =
  (Throw (RichMenuApiError ("找不到圖片檔案：" ++ path_resolve p)
            400 default_details), w).
Proof.
  intro H. unfold uploadRichMenuImage, bind. rewrite H. reflexivity.
Qed.

Lemma upload_file_oversized richMenuId p contentType w b :
  fs_existsSync (path_resolve p) = true ->
  fs_readFileSync (path_resolve p) = Return b ->
  oversized b = true ->
  exists message,
    uploadRichMenuImage richMenuId (InputString p) contentType w =
    (Throw (RichMenuApiError message 400 default_details), w).
Proof.
  intros He Hr Ho. unfold oversized in Ho.
  unfold uploadRichMenuImage, bind, lift, ret. rewrite He, Hr.
  cbn [negb fst snd]. rewrite Ho. eexists. reflexivity.
Qed.

(** The MIME type an existing file is sent with. *)
Lemma upload_file_accepted richMenuId p contentType w b :
  fs_existsSync (path_resolve p) = true ->
  fs_readFileSync (path_resolve p) = Return b ->
  oversized b = false ->
  uploadRichMenuImage richMenuId (InputString p) contentType w =
  apiCall ("/v2/bot/richmenu/" ++ richMenuId ++ "/content")
    (RequestInit.mk (Some "POST")
       [("Content-Type",
         detect_contentType (path_resolve p) (contentType_or_default contentType))]
       (Some (BodyBuffer b)))
    (Some (DATA_API_BASE_URL cfg)) w.
Proof.
  intros He Hr Ho. unfold oversized in Ho.
  unfold uploadRichMenuImage, bind, lift, ret. rewrite He, Hr.
  cbn [negb fst snd]. rewrite Ho. reflexivity.
Qed.

Lemma upload_read_failed richMenuId p contentType w e :
  fs_existsSync (path_resolve p) = true ->
  fs_readFileSync (path_resolve p) = Throw e ->
  uploadRichMenuImage richMenuId (InputString p) contentType w = (Throw e, w).
Proof.
  intros He Hr. unfold uploadRichMenuImage, bind, lift. rewrite He, Hr.
  reflexivity.
Qed.

(** A locally rejected call throws status 400 and leaves the world as it
    was, whatever the credential. *)
Lemma call_rejected op w :
  local_validation op = Rejected ->
  exists message,
    call op w = (Throw (RichMenuApiError message 400 default_details), w).
Proof.
  intro H. destruct op; cbn [local_validation] in H; try discriminate.
  - destruct imageInput as [b | p |].
    + destruct (oversized b) eqn:Ho; [ | discriminate ].
      destruct (upload_oversized richMenuId b contentType w Ho) as [m Hm].
      exists m. open_call. now rewrite Hm.
    + destruct (fs_existsSync (path_resolve p)) eqn:He; cbn [negb] in H.
      * destruct (fs_readFileSync (path_resolve p)) as [b | e] eqn:Hr;
          [ | discriminate ].
        destruct (oversized b) eqn:Ho; [ | discriminate ].
        destruct (upload_file_oversized richMenuId p contentType w b He Hr Ho)
          as [m Hm].
        exists m. open_call. now rewrite Hm.
      * eexists. open_call. rewrite (upload_missing_file _ _ _ _ He). reflexivity.
    + eexists. open_call. rewrite upload_other. reflexivity.
  - destruct (500 <? length userIds)%nat eqn:E; [ | discriminate ].
    eexists. open_call. unfold throw. rewrite E. reflexivity.
  - destruct (500 <? length userIds)%nat eqn:E; [ | discriminate ].
    eexists. open_call. unfold throw. rewrite E. reflexivity.
Qed.

(** With the credential unset, a call whose input passes the local checks
    stops at the credential gate. *)
Lemma call_unset_accepted op w :
  token_unset (channelAccessToken w) = true ->
  local_validation op = Accepted ->
  call op w = (Throw unauthenticated, w).
Proof.
  intros Htok H.
  destruct op; cbn [local_validation] in H; open_call;
    try (rewrite (apiCall_unset _ _ _ _ Htok); reflexivity).
  - destruct imageInput as [b | p |]; try discriminate.
    + destruct (oversized b) eqn:Ho; [ discriminate | ].
      rewrite (upload_buffer_accepted _ _ _ _ Ho), (apiCall_unset _ _ _ _ Htok).
      reflexivity.
    + destruct (fs_existsSync (path_resolve p)) eqn:He; cbn [negb] in H;
        [ | discriminate ].
      destruct (fs_readFileSync (path_resolve p)) as [b | e] eqn:Hr;
        [ | discriminate ].
      destruct (oversized b) eqn:Ho; [ discriminate | ].
      rewrite (upload_file_accepted _ _ _ _ _ He Hr Ho), (apiCall_unset _ _ _ _ Htok).
      reflexivity.
  - rewrite (ensureToken_unset _ Htok). reflexivity.
  - destruct (500 <? length userIds)%nat; [ discriminate | ].
    rewrite (apiCall_unset _ _ _ _ Htok). reflexivity.
  - destruct (500 <? length userIds)%nat; [ discriminate | ].
    rewrite (apiCall_unset _ _ _ _ Htok). reflexivity.
Qed.

(** With the credential unset, no call touches the world. *)
Lemma call_unset_world op w :
  token_unset (channelAccessToken w) = true ->
  snd (call op w) = w.
Proof.
  intro Htok. destruct (local_validation op) eqn:H.
  - now rewrite (call_unset_accepted _ _ Htok H).
  - destruct (call_rejected op w H) as [m Hm]. now rewrite Hm.
  - destruct op; cbn [local_validation] in H; try discriminate.
    + destruct imageInput as [b | p |]; try discriminate.
      * destruct (oversized b); discriminate.
      * destruct (fs_existsSync (path_resolve p)) eqn:He; cbn [negb] in H;
          [ | discriminate ].
        destruct (fs_readFileSync (path_resolve p)) as [b | e] eqn:Hr.
        -- destruct (oversized b); discriminate.
        -- open_call. rewrite (upload_read_failed _ _ _ _ _ He Hr). reflexivity.
    + destruct (500 <? length userIds)%nat; discriminate.
    + destruct (500 <? length userIds)%nat; discriminate.
Qed.

(** After the credential gate, [apiCall] changes the world only through
    [fetchWithRetry]. *)
Lemma apiCall_snd endpoint options baseUrl w :
  token_unset (channelAccessToken w) = false ->
  snd (apiCall endpoint options baseUrl w) =
  snd (fetchWithRetry (baseUrl_or_default baseUrl ++ endpoint)
         (mergedOptions (channelAccessToken w) options) 0 w).
Proof.
  intro Htok. unfold apiCall, bind. rewrite (ensureToken_ok _ Htok).
  destruct (fetchWithRetry _ _ 0 w) as [[response | e] w']; [ | reflexivity ].
  cbn [snd].
  destruct (Response.status response =? 204); [ reflexivity | ].
  destruct (Response.ok response); [ | reflexivity ].
  destruct (includes _ "application/json"); [ reflexivity | ].
  unfold lift. destruct (fst (Response_text response)) as [text | e];
    [ | reflexivity ].
  destruct (String.eqb text "{}" || String.eqb text ""); [ reflexivity | ].
  destruct (JSON_parse text); reflexivity.
Qed.

Lemma retry_rounds_head base url options k :
  exists rest,
    (retry_rounds base url options 0 k ++ [EvFetch url options] =
     EvFetch url options :: rest)%list.
Proof.
  destruct k as [| k]; [ now exists [] | ].
  unfold retry_rounds. cbn [seq flat_map retry_round app]. eexists. reflexivity.
Qed.

(** With a credential set, [apiCall] reaches the network: the first new
    event is the transport call for the merged request. *)
Lemma apiCall_reaches_network endpoint options baseUrl w :
  token_unset (channelAccessToken w) = false ->
  exists rest,
    snd (apiCall endpoint options baseUrl w) =
    push w (EvFetch (baseUrl_or_default baseUrl ++ endpoint)
              (mergedOptions (channelAccessToken w) options) :: rest).
Proof.
  intro Htok. rewrite (apiCall_snd _ _ _ _ Htok).
  destruct (fetchWithRetry_trace (baseUrl_or_default baseUrl ++ endpoint)
              (mergedOptions (channelAccessToken w) options) 0 w) as [k [_ Hk]].
  destruct (retry_rounds_head (RETRY_BASE_DELAY_MS cfg)
              (baseUrl_or_default baseUrl ++ endpoint)
              (mergedOptions (channelAccessToken w) options) k) as [rest Hrest].
  exists rest. now rewrite Hk, Hrest.
Qed.

(** C2 (as amended). With the credential empty or equal to the placeholder,
    no exported operation makes a transport call: the world, and so the trace,
    is left as it was.  An operation whose input passes its local checks throws
    the typed error with status code 401; an operation whose input fails them
    (image input of the wrong type, missing file, more than 1 MiB, more than
    500 user IDs) has already thrown the typed error with status code 400. *)
Theorem credential_gate op w :
  token_unset (channelAccessToken w) = true ->
  snd (call op w) = w /\
  (local_validation op = Accepted -> fst (call op w) = Throw unauthenticated) /\
  (local_validation op = Rejected ->
   exists message,
     fst (call op w) = Throw (RichMenuApiError message 400 default_details)).
Proof.
  intro Htok. split; [ now apply call_unset_world | split ].
  - intro H. now rewrite (call_unset_accepted _ _ Htok H).
  - intro H. destruct (call_rejected op w H) as [m Hm]. exists m. now rewrite Hm.
Qed.

(** C6. Local validation failures stop before any transport call:
    [uploadRichMenuImage] with a buffer of more than 1,048,576 bytes, and
    [bulkLinkRichMenu] / [bulkUnlinkRichMenu] with more than 500 user IDs,
    throw the typed error with status 400 and leave the world (so the trace)
    as it was; with exactly 500 user IDs, and a credential, the bulk calls
    reach the network. *)
Theorem local_validation_short_circuits w :
  (forall richMenuId b contentType,
      1048576 < Z.of_nat (length b) ->
      exists message,
        uploadRichMenuImage richMenuId (InputBuffer b) contentType w =
        (Throw (RichMenuApiError message 400 default_details), w)) /\
  (forall richMenuId userIds,
      (500 < length userIds)%nat ->
      exists message,
        bulkLinkRichMenu richMenuId userIds w =
        (Throw (RichMenuApiError message 400 default_details), w)) /\
  (forall userIds,
      (500 < length userIds)%nat ->
      exists message,
        bulkUnlinkRichMenu userIds w =
        (Throw (RichMenuApiError message 400 default_details), w)) /\
  (forall richMenuId userIds,
      length userIds = 500%nat ->
      token_unset (channelAccessToken w) = false ->
      exists init rest,
        snd (bulkLinkRichMenu richMenuId userIds w) =
        push w (EvFetch (API_BASE_URL cfg ++ "/v2/bot/richmenu/bulk/link") init
                  :: rest)) /\
  (forall userIds,
      length userIds = 500%nat ->
      token_unset (channelAccessToken w) = false ->
      exists init rest,
        snd (bulkUnlinkRichMenu userIds w) =
        push w (EvFetch (API_BASE_URL cfg ++ "/v2/bot/richmenu/bulk/unlink") init
                  :: rest)).
Proof.
  repeat split.
  - intros richMenuId b contentType H. apply upload_oversized.
    unfold oversized. apply Z.ltb_lt. exact H.
  - intros richMenuId userIds H. apply Nat.ltb_lt in H.
    eexists. unfold bulkLinkRichMenu, throw. rewrite H. reflexivity.
  - intros userIds H. apply Nat.ltb_lt in H.
    eexists. unfold bulkUnlinkRichMenu, throw. rewrite H. reflexivity.
  - intros richMenuId userIds H Htok. unfold bulkLinkRichMenu. rewrite H.
    cbn [Nat.ltb Nat.leb].
    destruct (apiCall_reaches_network "/v2/bot/richmenu/bulk/link"
                (POST_json (JObj [("richMenuId", JStr richMenuId);
                                  ("userIds", JArr (map JStr userIds))]))
                None w Htok) as [rest Hrest].
    eexists _, rest. exact Hrest.
  - intros userIds H Htok. unfold bulkUnlinkRichMenu. rewrite H.
    cbn [Nat.ltb Nat.leb].
    destruct (apiCall_reaches_network "/v2/bot/richmenu/bulk/unlink"
                (POST_json (JObj [("userIds", JArr (map JStr userIds))]))
                None w Htok) as [rest Hrest].
    eexists _, rest. exact Hrest.
Qed.

(** C9. Local validation comes before the credential gate: with the
    credential unset, [uploadRichMenuImage] with an input that is neither a
    Buffer nor a string, with a path to no file, or with an oversized buffer,
    and the bulk operations with more than 500 user IDs, throw the typed error
    with status code 400 and the world (so the trace of transport calls) is
    left as it was, although [apiCall], where the credential gate is, would throw the
    typed error with status code 401 for any request in that world. *)
Theorem local_validation_precedes_gate w :
  token_unset (channelAccessToken w) = true ->
  (forall richMenuId contentType,
      exists message,
        uploadRichMenuImage richMenuId InputOther contentType w =
        (Throw (RichMenuApiError message 400 default_details), w)) /\
  (forall richMenuId path contentType,
      fs_existsSync (path_resolve path) = false ->
      exists message,
        uploadRichMenuImage richMenuId (InputString path) contentType w =
        (Throw (RichMenuApiError message 400 default_details), w)) /\
  (forall richMenuId b contentType,
      1024 * 1024 < Z.of_nat (length b) ->
      exists message,
        uploadRichMenuImage richMenuId (InputBuffer b) contentType w =
        (Throw (RichMenuApiError message 400 default_details), w)) /\
  (forall richMenuId userIds,
      (500 < length userIds)%nat ->
      exists message,
        bulkLinkRichMenu richMenuId userIds w =
        (Throw (RichMenuApiError message 400 default_details), w)) /\
  (forall userIds,
      (500 < length userIds)%nat ->
      exists message,
        bulkUnlinkRichMenu userIds w =
        (Throw (RichMenuApiError message 400 default_details), w)) /\
  (forall endpoint options baseUrl,
      apiCall endpoint options baseUrl w = (Throw unauthenticated, w)).
Proof.
  intros Htok. repeat split.
  - intros richMenuId contentType. eexists. apply upload_other.
  - intros richMenuId path contentType H. eexists.
    now apply upload_missing_file.
  - intros richMenuId b contentType H. apply upload_oversized.
    unfold oversized. apply Z.ltb_lt. exact H.
  - intros richMenuId userIds H. apply Nat.ltb_lt in H.
    eexists. unfold bulkLinkRichMenu, throw. rewrite H. reflexivity.
  - intros userIds H. apply Nat.ltb_lt in H.
    eexists. unfold bulkUnlinkRichMenu, throw. rewrite H. reflexivity.
  - intros endpoint options baseUrl. now apply apiCall_unset.
Qed.

(** ** Reading the body of a fresh response *)

Lemma Response_text_fresh r :
  Response.bodyUsed r = false ->
  fst (Response_text r) = Return (body_text r).
Proof.
  intro H. unfold Response_text, consume_body, body_text, body_bytes.
  destruct (Response.body r); [ rewrite H | ]; reflexivity.
Qed.

Lemma Response_json_fresh r :
  Response.bodyUsed r = false ->
  fst (Response_json r) =
  match JSON_parse (body_text r) with
  | Some j => Return j
  | None => Throw (SyntaxError "Unexpected token in JSON")
  end.
Proof.
  intro H. unfold Response_json, consume_body, body_text, body_bytes.
  destruct (Response.body r); [ rewrite H | ]; cbn;
    destruct (JSON_parse _); reflexivity.
Qed.

Lemma Response_arrayBuffer_fresh r :
  Response.bodyUsed r = false ->
  fst (Response_arrayBuffer r) = Return (body_bytes r).
Proof.
  intro H. unfold Response_arrayBuffer, consume_body, body_bytes.
  destruct (Response.body r); [ rewrite H | ]; reflexivity.
Qed.

(** An error body that parses is the [errorBody]. *)
Lemma read_errorBody_json r j :
  Response.bodyUsed r = false ->
  JSON_parse (body_text r) = Some j ->
  read_errorBody r = j.
Proof.
  intros H Hj. unfold read_errorBody, Response_json, consume_body.
  unfold body_text, body_bytes in Hj.
  destruct (Response.body r); [ rewrite H | ]; cbn; now rewrite Hj.
Qed.

(** An error body that does not parse was consumed by [response.json()]:
    [response.text()] rejects and the [catch] supplies its fixed text. *)
Lemma read_errorBody_text r b :
  Response.bodyUsed r = false ->
  Response.body r = Some b ->
  JSON_parse (TextDecoder_decode b) = None ->
  read_errorBody r = JObj [("message", JStr "無法解析錯誤內容")].
Proof.
  intros H Hb Hj. unfold read_errorBody, Response_json, Response_text, consume_body.
  rewrite Hb, H, Hj. cbn. reflexivity.
Qed.

(** ** The message table *)

Lemma getErrorMessage_listed body :
  getErrorMessage 400 body = "請求參數錯誤：" ++ error_detail body /\
  getErrorMessage 401 body = "Channel Access Token 無效或已過期，請重新取得。" /\
  getErrorMessage 403 body = "權限不足，請確認 Token 的權限設定。" /\
  getErrorMessage 404 body = "找不到指定的資源（Rich Menu 或使用者）。" /\
  getErrorMessage 409 body = "資源衝突，可能已存在相同的別名。" /\
  getErrorMessage 429 body = "API 呼叫頻率超限，請稍後再試。".
Proof. repeat split. Qed.

Lemma getErrorMessage_unlisted status body :
  ~ In status [400; 401; 403; 404; 409; 429] ->
  getErrorMessage status body =
  "API 呼叫失敗 (HTTP " ++ Z_toString status ++ ")：" ++ error_detail body.
Proof.
  intro H. unfold getErrorMessage, messages. cbn [lookup_status].
  repeat match goal with
         | |- context [status =? ?k] =>
             destruct (Z.eqb_spec status k) as [-> | _];
             [ exfalso; apply H; cbn; tauto | ]
         end.
  reflexivity.
Qed.





(** What [apiCall] throws for a final response that is not a success: one
    typed error with the response status, the message of the table, and as
    [details] the parsed body, or, when the body does not parse, an object
    whose [message] is the fixed text of the inner [catch]. *)
Lemma apiCall_error_normalization endpoint options baseUrl w response w' :
  token_unset (channelAccessToken w) = false ->
  fetchWithRetry (baseUrl_or_default baseUrl ++ endpoint)
    (mergedOptions (channelAccessToken w) options) 0 w = (Return response, w') ->
  Response.ok response = false ->
  exists details,
    apiCall endpoint options baseUrl w =
    (Throw (RichMenuApiError (getErrorMessage (Response.status response) details)
              (Response.status response) details), w') /\
    (forall j, JSON_parse (body_text response) = Some j -> details = j) /\
    (forall b,
        Response.body response = Some b ->
        JSON_parse (TextDecoder_decode b) = None ->
        details = JObj [("message", JStr "無法解析錯誤內容")]).
Proof.
  intros Htok Hrun Hok.
  pose proof (fetchWithRetry_fresh _ _ _ _ _ _ Hrun) as Hfresh.
  exists (read_errorBody response). split; [ | split ].
  - now apply apiCall_error_response.
  - intros j Hj. now apply read_errorBody_json.
  - intros b Hb Hj. now apply (read_errorBody_text _ b).
Qed.

(** ** Image download *)

Lemma download_unset richMenuId w :
  token_unset (channelAccessToken w) = true ->
  downloadRichMenuImage richMenuId w = (Throw unauthenticated, w).
Proof.
  intro H. unfold downloadRichMenuImage, bind.
  now rewrite (ensureToken_unset _ H).
Qed.

Lemma download_snd richMenuId w :
  token_unset (channelAccessToken w) = false ->
  snd (downloadRichMenuImage richMenuId w) =
  snd (fetchWithRetry (download_url richMenuId)
         (download_options (channelAccessToken w)) 0 w).
Proof.
  intro Htok. unfold downloadRichMenuImage, bind. rewrite (ensureToken_ok _ Htok).
  fold (download_url richMenuId). fold (download_options (channelAccessToken w)).
  destruct (fetchWithRetry _ _ 0 w) as [[response | e] w']; [ | reflexivity ].
  cbn [snd]. destruct (Response.ok response); cbn [negb]; [ | reflexivity ].
  unfold lift. destruct (fst (Response_arrayBuffer response)); reflexivity.
Qed.

(** C5 (as amended). [downloadRichMenuImage] passes the credential gate and
    goes through [fetchWithRetry] with the bearer header, against the
    data-plane address.  For a final response that is not a success it throws
    the typed error with the response status, the message
    "cannot download image (HTTP status)" and the default, empty [details]:
    the body sent by the remote service is not read.  For a success it returns
    the bytes of the body as they are. *)
Theorem downloadRichMenuImage_outcomes richMenuId w :
  (token_unset (channelAccessToken w) = true ->
   downloadRichMenuImage richMenuId w = (Throw unauthenticated, w)) /\
  (token_unset (channelAccessToken w) = false ->
   (exists k,
       (k <= MAX_RETRIES cfg)%nat /\
       snd (downloadRichMenuImage richMenuId w) =
       push w (retry_rounds (RETRY_BASE_DELAY_MS cfg) (download_url richMenuId)
                 (download_options (channelAccessToken w)) 0 k
               ++ [EvFetch (download_url richMenuId)
                     (download_options (channelAccessToken w))])) /\
   (forall response w',
       fetchWithRetry (download_url richMenuId)
         (download_options (channelAccessToken w)) 0 w = (Return response, w') ->
       (Response.ok response = false ->
        downloadRichMenuImage richMenuId w =
        (Throw (RichMenuApiError
                  ("無法下載圖片（HTTP " ++ Z_toString (Response.status response) ++ "）")
                  (Response.status response) default_details), w')) /\
       (Response.ok response = true ->
        downloadRichMenuImage richMenuId w = (Return (body_bytes response), w')))).
Proof.
  split; [ apply download_unset | ].
  intro Htok. split.
  - rewrite (download_snd _ _ Htok).
    destruct (fetchWithRetry_trace (download_url richMenuId)
                (download_options (channelAccessToken w)) 0 w) as [k [Hk Heq]].
    exists k. split; [ lia | exact Heq ].
  - intros response w' Hrun.
    pose proof (fetchWithRetry_fresh _ _ _ _ _ _ Hrun) as Hfresh.
    unfold download_url, download_options in Hrun.
    split; intro Hok; unfold downloadRichMenuImage, bind;
      rewrite (ensureToken_ok _ Htok), Hrun, Hok; cbn [negb]; [ reflexivity | ].
    unfold lift. rewrite (Response_arrayBuffer_fresh _ Hfresh). reflexivity.
Qed.

(** ** List operations *)







(** ** Where the requests go *)

Lemma requests_app (a b : list Event) :
  requests (a ++ b) = (requests a ++ requests b)%list.
Proof.
  induction a as [| e a IH]; [ reflexivity | ].
  destruct e; cbn; now rewrite IH.
Qed.

Lemma requests_retry_rounds base url options start k u i :
  In (u, i) (requests (retry_rounds base url options start k)) ->
  (u, i) = (url, options).
Proof.
  revert start. induction k as [| k IH]; intro start; [ intros [] | ].
  unfold retry_rounds in *. cbn [seq flat_map].
  rewrite requests_app. intro H. apply in_app_or in H as [H | H].
  - cbn in H. destruct H as [H | []]. now symmetry.
  - now apply (IH (S start)).
Qed.

Lemma only_requests_to_nil base : only_requests_to base [].
Proof. intros url init []. Qed.

Lemma only_requests_to_run base url options k path :
  url = base ++ path ->
  only_requests_to base
    (retry_rounds (RETRY_BASE_DELAY_MS cfg) url options 0 k ++ [EvFetch url options]).
Proof.
  intros Hurl u i H. rewrite requests_app in H. apply in_app_or in H as [H | H].
  - apply requests_retry_rounds in H. injection H as -> _. now exists path.
  - cbn in H. destruct H as [H | []]. injection H as <- _. now exists path.
Qed.

Lemma apiCall_only_requests endpoint options baseUrl w :
  exists events,
    snd (apiCall endpoint options baseUrl w) = push w events /\
    only_requests_to (baseUrl_or_default baseUrl) events.
Proof.
  destruct (token_unset (channelAccessToken w)) eqn:Htok.
  - exists []. rewrite (apiCall_unset _ _ _ _ Htok), push_nil.
    split; [ reflexivity | apply only_requests_to_nil ].
  - rewrite (apiCall_snd _ _ _ _ Htok).
    destruct (fetchWithRetry_trace (baseUrl_or_default baseUrl ++ endpoint)
                (mergedOptions (channelAccessToken w) options) 0 w) as [k [_ Hk]].
    eexists. split; [ exact Hk | ].
    now apply (only_requests_to_run _ _ _ _ endpoint).
Qed.

Lemma as_json_snd (c : Run Json) w : snd (as_json c w) = snd (c w).
Proof. unfold as_json, bind. now destruct (c w) as [[v | e] w1]. Qed.

Lemma as_buffer_snd (c : Run Buffer) w : snd (as_buffer c w) = snd (c w).
Proof. unfold as_buffer, bind. now destruct (c w) as [[v | e] w1]. Qed.

Lemma list_snd endpoint key w :
  snd (as_value (result <- apiCall endpoint GET None ;;
                 field <- member result key ;;
                 ret (js_or field (Some (JArr [])))) w) =
  snd (apiCall endpoint GET None w).
Proof.
  unfold as_value, bind.
  destruct (apiCall endpoint GET None w) as [[result | e] w1]; [ | reflexivity ].
  now destruct result.
Qed.

(** What [uploadRichMenuImage] does to the world: nothing, or what its
    [apiCall] against the data-plane address does. *)
Lemma upload_snd richMenuId imageInput contentType w :
  snd (uploadRichMenuImage richMenuId imageInput contentType w) = w \/
  exists options,
    snd (uploadRichMenuImage richMenuId imageInput contentType w) =
    snd (apiCall ("/v2/bot/richmenu/" ++ richMenuId ++ "/content") options
           (Some (DATA_API_BASE_URL cfg)) w).
Proof.
  destruct imageInput as [b | p |].
  - destruct (oversized b) eqn:Ho.
    + left. destruct (upload_oversized richMenuId b contentType w Ho) as [m ->].
      reflexivity.
    + right. eexists. rewrite (upload_buffer_accepted _ _ _ _ Ho). reflexivity.
  - destruct (fs_existsSync (path_resolve p)) eqn:He.
    + destruct (fs_readFileSync (path_resolve p)) as [b | e] eqn:Hr.
      * destruct (oversized b) eqn:Ho.
        -- left.
           destruct (upload_file_oversized richMenuId p contentType w b He Hr Ho)
             as [m ->].
           reflexivity.
        -- right. eexists.
           rewrite (upload_file_accepted _ _ _ _ _ He Hr Ho). reflexivity.
      * left. now rewrite (upload_read_failed _ _ _ _ _ He Hr).
    + left. now rewrite (upload_missing_file _ _ _ _ He).
  - left. now rewrite upload_other.
Qed.

(** Every transport call of an operation goes to the base address meant for
    it. *)
Lemma call_only_requests op w :
  exists events,
    snd (call op w) = push w events /\
    only_requests_to (base_url_of op) events.
Proof.
  assert (Hnone : snd (call op w) = w ->
                  exists events,
                    snd (call op w) = push w events /\
                    only_requests_to (base_url_of op) events).
  { intro H. exists []. rewrite H, push_nil.
    split; [ reflexivity | apply only_requests_to_nil ]. }
  destruct op; unfold base_url_of; cbn [is_image_op];
    try (cbn [call]; rewrite as_json_snd;
         first [ apply (apiCall_only_requests _ _ None) ]).
  - cbn [call]. unfold listRichMenus. rewrite list_snd.
    apply (apiCall_only_requests _ _ None).
  - destruct (upload_snd richMenuId imageInput contentType w) as [H | [options H]].
    + apply Hnone. cbn [call]. now rewrite as_json_snd.
    + cbn [call]. rewrite as_json_snd, H.
      apply (apiCall_only_requests _ _ (Some (DATA_API_BASE_URL cfg))).
  - cbn [call]. rewrite as_buffer_snd.
    destruct (token_unset (channelAccessToken w)) eqn:Htok.
    + exists []. rewrite (download_unset _ _ Htok), push_nil.
      split; [ reflexivity | apply only_requests_to_nil ].
    + rewrite (download_snd _ _ Htok).
      destruct (fetchWithRetry_trace (download_url richMenuId)
                  (download_options (channelAccessToken w)) 0 w) as [k [_ Hk]].
      eexists. split; [ exact Hk | ].
      now apply (only_requests_to_run _ _ _ _
                   ("/v2/bot/richmenu/" ++ richMenuId ++ "/content")).
  - cbn [call]. rewrite as_json_snd. unfold bulkLinkRichMenu.
    destruct (500 <? length userIds)%nat.
    + exists []. rewrite push_nil.
      split; [ reflexivity | apply only_requests_to_nil ].
    + apply (apiCall_only_requests _ _ None).
  - cbn [call]. rewrite as_json_snd. unfold bulkUnlinkRichMenu.
    destruct (500 <? length userIds)%nat.
    + exists []. rewrite push_nil.
      split; [ reflexivity | apply only_requests_to_nil ].
    + apply (apiCall_only_requests _ _ None).
  - cbn [call]. unfold listRichMenuAliases. rewrite list_snd.
    apply (apiCall_only_requests _ _ None).
Qed.

(** With a credential, an operation whose input passes the local checks
    makes a transport call first. *)
Lemma call_accepted_sends op w :
  token_unset (channelAccessToken w) = false ->
  local_validation op = Accepted ->
  exists url init rest, snd (call op w) = push w (EvFetch url init :: rest).
Proof.
  intros Htok H.
  assert (Hapi : forall endpoint options baseUrl,
             exists url init rest,
               snd (apiCall endpoint options baseUrl w) =
               push w (EvFetch url init :: rest)).
  { intros endpoint options baseUrl.
    destruct (apiCall_reaches_network endpoint options baseUrl w Htok) as [rest Hr].
    eexists _, _, rest. exact Hr. }
  destruct op; cbn [local_validation] in H; cbn [call];
    rewrite ?as_json_snd, ?as_buffer_snd; try apply Hapi.
  - unfold listRichMenus. rewrite list_snd. apply Hapi.
  - destruct imageInput as [b | p |]; try discriminate.
    + destruct (oversized b) eqn:Ho; [ discriminate | ].
      rewrite (upload_buffer_accepted _ _ _ _ Ho). apply Hapi.
    + destruct (fs_existsSync (path_resolve p)) eqn:He; cbn [negb] in H;
        [ | discriminate ].
      destruct (fs_readFileSync (path_resolve p)) as [b | e] eqn:Hr;
        [ | discriminate ].
      destruct (oversized b) eqn:Ho; [ discriminate | ].
      rewrite (upload_file_accepted _ _ _ _ _ He Hr Ho). apply Hapi.
  - rewrite (download_snd _ _ Htok).
    destruct (fetchWithRetry_trace (download_url richMenuId)
                (download_options (channelAccessToken w)) 0 w) as [k [_ Hk]].
    destruct (retry_rounds_head (RETRY_BASE_DELAY_MS cfg) (download_url richMenuId)
                (download_options (channelAccessToken w)) k) as [rest Hrest].
    eexists _, _, rest. now rewrite Hk, Hrest.
  - unfold bulkLinkRichMenu. destruct (500 <? length userIds)%nat;
      [ discriminate | apply Hapi ].
  - unfold bulkUnlinkRichMenu. destruct (500 <? length userIds)%nat;
      [ discriminate | apply Hapi ].
  - unfold listRichMenuAliases. rewrite list_snd. apply Hapi.
Qed.

(** ** Retries that end before the bound *)

Lemma retry_rounds_S base url options start k :
  retry_rounds base url options start (S k) =
  (retry_round base url options start
   ++ retry_rounds base url options (S start) k)%list.
Proof. reflexivity. Qed.

(** [k] rate-limited attempts with retries left are [k] rounds, and the
    call goes on from attempt [start + k]. *)
Lemma fetchWithRetry_skip_rounds url options :
  forall k start w,
    (start + k <= MAX_RETRIES cfg)%nat ->
    limited_for url options w start k ->
    fetchWithRetry url options start w =
    fetchWithRetry url options (start + k)
      (push w (retry_rounds (RETRY_BASE_DELAY_MS cfg) url options start k)).
Proof.
  intro k. induction k as [| k IH]; intros start w Hle Hlim.
  - rewrite Nat.add_0_r. unfold retry_rounds. cbn [seq flat_map].
    now rewrite push_nil.
  - destruct (Hlim 0%nat) as [r0 [Hnet0 Hst0]]; [ lia | ].
    unfold retry_rounds in Hnet0. cbn [seq flat_map] in Hnet0.
    rewrite app_nil_r in Hnet0.
    rewrite (fetchWithRetry_retry _ _ _ _ _ Hnet0 Hst0) by lia.
    rewrite (IH (S start)
               (push w (retry_round (RETRY_BASE_DELAY_MS cfg) url options start)));
      [ | lia | ].
    + rewrite push_push, retry_rounds_S, Nat.add_succ_r. reflexivity.
    + intros j Hj. destruct (Hlim (S j)) as [r [Hnet Hst]]; [ lia | ].
      exists r. split; [ | exact Hst ].
      rewrite retry_rounds_S in Hnet. cbn [trace push].
      rewrite <- app_assoc. exact Hnet.
Qed.

Lemma sum_Z_app (a b : list Z) : sum_Z (a ++ b) = sum_Z a + sum_Z b.
Proof.
  unfold sum_Z. induction a as [| x a IH]; cbn; [ reflexivity | ].
  rewrite IH. lia.
Qed.

(** The back-off sleeps of [k] retries add up to [base * (2^k - 1)]. *)
Lemma sum_backoff base k :
  sum_Z (map (fun attempt => base * 2 ^ Z.of_nat attempt) (seq 0 k)) =
  base * (2 ^ Z.of_nat k - 1).
Proof.
  induction k as [| k IH]; [ cbn; lia | ].
  rewrite seq_S, map_app, sum_Z_app, IH. cbn [map sum_Z fold_right Nat.add].
  rewrite Nat2Z.inj_succ, Z.pow_succ_r by lia. lia.
Qed.

(** X1. Retry success path: when the first [k] replies (k <= MAX_RETRIES)
    are 429 and the next one has another status, [fetchWithRetry] hands back
    that reply after [k + 1] transport calls and exactly [k] sleeps, of
    RETRY_BASE_DELAY_MS * 2^0, ..., * 2^(k-1). *)
Theorem fetchWithRetry_retry_then_reply url options w k reply :
  (k <= MAX_RETRIES cfg)%nat ->
  limited_for url options w 0 k ->
  network (trace w ++ retry_rounds (RETRY_BASE_DELAY_MS cfg) url options 0 k)
    url options = Return reply ->
  reply_status reply <> 429 ->
  fetchWithRetry url options 0 w =
  (Return (Response.of_reply reply),
   push w (retry_rounds (RETRY_BASE_DELAY_MS cfg) url options 0 k
           ++ [EvFetch url options])) /\
  count_fetch (retry_rounds (RETRY_BASE_DELAY_MS cfg) url options 0 k
               ++ [EvFetch url options]) = (k + 1)%nat /\
  delays (retry_rounds (RETRY_BASE_DELAY_MS cfg) url options 0 k
          ++ [EvFetch url options]) =
  map (fun attempt => RETRY_BASE_DELAY_MS cfg * 2 ^ Z.of_nat attempt) (seq 0 k).
Proof.
  intros Hk Hlim Hnet Hst. split; [ | split ].
  - rewrite (fetchWithRetry_skip_rounds url options k 0 w) by assumption.
    rewrite (fetchWithRetry_no_retry _ _ _ _ reply); [ | exact Hnet | exact Hst ].
    now rewrite push_push.
  - rewrite count_fetch_app, count_fetch_retry_rounds. reflexivity.
  - rewrite delays_app, delays_retry_rounds. cbn [delays]. apply app_nil_r.
Qed.

(** X2. Whatever the transport does, one call of [fetchWithRetry] makes
    [k + 1] transport calls for some [k <= MAX_RETRIES] and sleeps
    [RETRY_BASE_DELAY_MS * (2^k - 1)] milliseconds in all: never more than
    MAX_RETRIES + 1 calls, nor, for a base delay that is not negative, more
    than [RETRY_BASE_DELAY_MS * (2^MAX_RETRIES - 1)] milliseconds. *)
Theorem fetchWithRetry_bounds url options w :
  exists k events,
    snd (fetchWithRetry url options 0 w) = push w events /\
    (k <= MAX_RETRIES cfg)%nat /\
    count_fetch events = (k + 1)%nat /\
    sum_Z (delays events) = RETRY_BASE_DELAY_MS cfg * (2 ^ Z.of_nat k - 1) /\
    (count_fetch events <= MAX_RETRIES cfg + 1)%nat /\
    (0 <= RETRY_BASE_DELAY_MS cfg ->
     0 <= sum_Z (delays events) <=
     RETRY_BASE_DELAY_MS cfg * (2 ^ Z.of_nat (MAX_RETRIES cfg) - 1)).
Proof.
  destruct (fetchWithRetry_trace url options 0 w) as [k [Hk Heq]].
  rewrite Nat.sub_0_r in Hk.
  exists k. eexists. split; [ exact Heq | ].
  assert (Hsum : sum_Z (delays
                          (retry_rounds (RETRY_BASE_DELAY_MS cfg) url options 0 k
                           ++ [EvFetch url options])) =
                 RETRY_BASE_DELAY_MS cfg * (2 ^ Z.of_nat k - 1)).
  { rewrite delays_app, delays_retry_rounds. cbn [delays].
    rewrite app_nil_r. apply sum_backoff. }
  assert (Hcount : count_fetch
                     (retry_rounds (RETRY_BASE_DELAY_MS cfg) url options 0 k
                      ++ [EvFetch url options]) = (k + 1)%nat).
  { rewrite count_fetch_app, count_fetch_retry_rounds. reflexivity. }
  split; [ exact Hk | split; [ exact Hcount | split; [ exact Hsum | split ] ] ].
  - rewrite Hcount. lia.
  - intro Hbase. rewrite Hsum.
    assert (H1 : 1 <= 2 ^ Z.of_nat k) by (apply Z.pow_le_mono_r with (b := 0); lia).
    assert (H2 : 2 ^ Z.of_nat k <= 2 ^ Z.of_nat (MAX_RETRIES cfg))
      by (apply Z.pow_le_mono_r; lia).
    nia.
Qed.

(** X3. A transport failure is not retried and not wrapped: when the
    transport rejects at the first attempt, or after [k] rate-limited ones,
    [apiCall] rejects with that same error, after that call and no other. *)
Theorem apiCall_transport_failure endpoint options baseUrl w k e :
  token_unset (channelAccessToken w) = false ->
  (k <= MAX_RETRIES cfg)%nat ->
  limited_for (baseUrl_or_default baseUrl ++ endpoint)
    (mergedOptions (channelAccessToken w) options) w 0 k ->
  network
    (trace w ++ retry_rounds (RETRY_BASE_DELAY_MS cfg)
                  (baseUrl_or_default baseUrl ++ endpoint)
                  (mergedOptions (channelAccessToken w) options) 0 k)
    (baseUrl_or_default baseUrl ++ endpoint)
    (mergedOptions (channelAccessToken w) options) = Throw e ->
  apiCall endpoint options baseUrl w =
  (Throw e,
   push w (retry_rounds (RETRY_BASE_DELAY_MS cfg)
             (baseUrl_or_default baseUrl ++ endpoint)
             (mergedOptions (channelAccessToken w) options) 0 k
           ++ [EvFetch (baseUrl_or_default baseUrl ++ endpoint)
                 (mergedOptions (channelAccessToken w) options)])).
Proof.
  intros Htok Hk Hlim Hnet. unfold apiCall, bind.
  rewrite (ensureToken_ok _ Htok).
  rewrite (fetchWithRetry_skip_rounds _ _ k 0 w) by assumption.
  rewrite fetchWithRetry_step. unfold bind, fetch. cbn [trace push].
  rewrite Hnet. unfold push. cbn [trace channelAccessToken].
  now rewrite <- app_assoc.
Qed.

(** ** Every exported operation at once *)

Lemma listRichMenus_unwrap : listRichMenus = list_unwrap "/v2/bot/richmenu/list" "richmenus".
Proof. reflexivity. Qed.

Lemma listRichMenuAliases_unwrap :
  listRichMenuAliases = list_unwrap "/v2/bot/richmenu/alias/list" "aliases".
Proof. reflexivity. Qed.

(** An operation whose input passes the local checks is [apiCall] on a
    request with no header or with a Content-Type only, against the base
    address meant for it, or is one of the two list operations, or the
    download. *)
Lemma call_accepted_form op w :
  local_validation op = Accepted ->
  (exists endpoint options baseUrl,
      baseUrl_or_default baseUrl = base_url_of op /\
      (RequestInit.headers options = [] \/
       exists ct, RequestInit.headers options = [("Content-Type", ct)]) /\
      call op w = as_json (apiCall endpoint options baseUrl) w) \/
  (exists endpoint key,
      base_url_of op = API_BASE_URL cfg /\
      call op w = as_value (list_unwrap endpoint key) w) \/
  (exists richMenuId, op = OpDownloadRichMenuImage richMenuId).
Proof.
  intro H.
  destruct op; cbn [local_validation] in H;
    try (left; eexists _, _, None;
         split; [ reflexivity | split; [ | reflexivity ] ];
         first [ left; reflexivity | right; eexists; reflexivity ]).
  - right. left. eexists _, _. split; reflexivity.
  - left. destruct imageInput as [b | p |]; try discriminate.
    + destruct (oversized b) eqn:Ho; [ discriminate | ].
      eexists _, _, (Some (DATA_API_BASE_URL cfg)).
      split; [ reflexivity | split ].
      2:{ cbn [call]. unfold as_json, bind.
          rewrite (upload_buffer_accepted _ _ _ _ Ho). reflexivity. }
      right. eexists. reflexivity.
    + destruct (fs_existsSync (path_resolve p)) eqn:He; cbn [negb] in H;
        [ | discriminate ].
      destruct (fs_readFileSync (path_resolve p)) as [b | e] eqn:Hr;
        [ | discriminate ].
      destruct (oversized b) eqn:Ho; [ discriminate | ].
      eexists _, _, (Some (DATA_API_BASE_URL cfg)).
      split; [ reflexivity | split ].
      2:{ cbn [call]. unfold as_json, bind.
          rewrite (upload_file_accepted _ _ _ _ _ He Hr Ho). reflexivity. }
      right. eexists. reflexivity.
  - right. right. eexists. reflexivity.
  - left. destruct (500 <? length userIds)%nat eqn:E; [ discriminate | ].
    eexists _, _, None. split; [ reflexivity | split ].
    2:{ cbn [call]. unfold bulkLinkRichMenu. rewrite E. reflexivity. }
    right. eexists. reflexivity.
  - left. destruct (500 <? length userIds)%nat eqn:E; [ discriminate | ].
    eexists _, _, None. split; [ reflexivity | split ].
    2:{ cbn [call]. unfold bulkUnlinkRichMenu. rewrite E. reflexivity. }
    right. eexists. reflexivity.
  - right. left. eexists _, _. split; reflexivity.
Qed.

(** A file that exists and cannot be read: the error of the read is the
    error of the call. *)
Lemma call_read_failed op w :
  local_validation op = ReadFailed ->
  exists path e,
    fs_readFileSync path = Throw e /\ call op w = (Throw e, w).
Proof.
  intro H. destruct op; cbn [local_validation] in H; try discriminate.
  - destruct imageInput as [b | p |]; try discriminate.
    + destruct (oversized b); discriminate.
    + destruct (fs_existsSync (path_resolve p)) eqn:He; cbn [negb] in H;
        [ | discriminate ].
      destruct (fs_readFileSync (path_resolve p)) as [b | e] eqn:Hr.
      * destruct (oversized b); discriminate.
      * exists (path_resolve p), e. split; [ exact Hr | ].
        cbn [call]. unfold as_json, bind.
        now rewrite (upload_read_failed _ _ _ _ _ He Hr).
  - destruct (500 <? length userIds)%nat; discriminate.
  - destruct (500 <? length userIds)%nat; discriminate.
Qed.



Lemma list_unwrap_snd endpoint key w :
  snd (as_value (list_unwrap endpoint key) w) = snd (apiCall endpoint GET None w).
Proof. apply list_snd. Qed.




(** The requests of [apiCall]: all for the same address, with the merged
    options, and only when a credential is set. *)
Lemma apiCall_requests endpoint options baseUrl w :
  exists events,
    snd (apiCall endpoint options baseUrl w) = push w events /\
    forall url init,
      In (url, init) (requests events) ->
      token_unset (channelAccessToken w) = false /\
      url = baseUrl_or_default baseUrl ++ endpoint /\
      init = mergedOptions (channelAccessToken w) options.
Proof.
  destruct (token_unset (channelAccessToken w)) eqn:Htok.
  - exists []. rewrite (apiCall_unset _ _ _ _ Htok), push_nil.
    split; [ reflexivity | intros url init [] ].
  - rewrite (apiCall_snd _ _ _ _ Htok).
    destruct (fetchWithRetry_trace (baseUrl_or_default baseUrl ++ endpoint)
                (mergedOptions (channelAccessToken w) options) 0 w) as [k [_ Hk]].
    eexists. split; [ exact Hk | ].
    intros url init Hin. rewrite requests_app in Hin.
    apply in_app_or in Hin as [Hin | Hin].
    + apply requests_retry_rounds in Hin. injection Hin as -> ->. auto.
    + cbn in Hin. destruct Hin as [Hin | []]. injection Hin as <- <-. auto.
Qed.

(** The requests of [downloadRichMenuImage]. *)
Lemma download_requests richMenuId w :
  exists events,
    snd (downloadRichMenuImage richMenuId w) = push w events /\
    forall url init,
      In (url, init) (requests events) ->
      token_unset (channelAccessToken w) = false /\
      url = download_url richMenuId /\
      init = download_options (channelAccessToken w).
Proof.
  destruct (token_unset (channelAccessToken w)) eqn:Htok.
  - exists []. rewrite (download_unset _ _ Htok), push_nil.
    split; [ reflexivity | intros url init [] ].
  - rewrite (download_snd _ _ Htok).
    destruct (fetchWithRetry_trace (download_url richMenuId)
                (download_options (channelAccessToken w)) 0 w) as [k [_ Hk]].
    eexists. split; [ exact Hk | ].
    intros url init Hin. rewrite requests_app in Hin.
    apply in_app_or in Hin as [Hin | Hin].
    + apply requests_retry_rounds in Hin. injection Hin as -> ->. auto.
    + cbn in Hin. destruct Hin as [Hin | []]. injection Hin as <- <-. auto.
Qed.

(** Every transport call of an operation is made with a credential that is
    set, and carries it as the bearer header. *)
Lemma call_bearer op w :
  exists events,
    snd (call op w) = push w events /\
    forall url init,
      In (url, init) (requests events) ->
      token_unset (channelAccessToken w) = false /\
      assoc "Authorization" (RequestInit.headers init) =
      Some ("Bearer " ++ channelAccessToken w).
Proof.
  destruct (local_validation op) eqn:Hloc.
  - destruct (call_accepted_form op w Hloc)
      as [[endpoint [options [baseUrl [_ [Hh Hcall]]]]]
         | [[endpoint [key [_ Hcall]]] | [richMenuId ->]]].
    + destruct (apiCall_requests endpoint options baseUrl w) as [events [He Hreq]].
      exists events. rewrite Hcall, as_json_snd. split; [ exact He | ].
      intros url init Hin. destruct (Hreq url init Hin) as [Htok [_ ->]].
      split; [ exact Htok | ]. unfold mergedOptions. cbn [RequestInit.headers].
      destruct Hh as [-> | [ct ->]]; reflexivity.
    + destruct (apiCall_requests endpoint GET None w) as [events [He Hreq]].
      exists events. rewrite Hcall, list_unwrap_snd. split; [ exact He | ].
      intros url init Hin. destruct (Hreq url init Hin) as [Htok [_ ->]].
      split; [ exact Htok | reflexivity ].
    + destruct (download_requests richMenuId w) as [events [He Hreq]].
      exists events. cbn [call]. rewrite as_buffer_snd. split; [ exact He | ].
      intros url init Hin. destruct (Hreq url init Hin) as [Htok [_ ->]].
      split; [ exact Htok | reflexivity ].
  - destruct (call_rejected op w Hloc) as [m Hm].
    exists []. rewrite Hm, push_nil. split; [ reflexivity | intros url init [] ].
  - destruct (call_read_failed op w Hloc) as [p [e [_ He]]].
    exists []. rewrite He, push_nil. split; [ reflexivity | intros url init [] ].
Qed.

(** ** Merging the request headers *)

Lemma assoc_obj_set_same {A : Type} k (v : A) l : assoc k (obj_set k v l) = Some v.
Proof.
  induction l as [| [k' v'] l IH]; cbn.
  - now rewrite String.eqb_refl.
  - destruct (String.eqb k k') eqn:E; cbn; rewrite E; [ reflexivity | exact IH ].
Qed.

Lemma assoc_obj_set_other {A : Type} k k0 (v : A) l :
  String.eqb k k0 = false -> assoc k (obj_set k0 v l) = assoc k l.
Proof.
  intro Hne. induction l as [| [k' v'] l IH]; cbn.
  - now rewrite Hne.
  - destruct (String.eqb k0 k') eqn:E; cbn.
    + apply String.eqb_eq in E. subst k'. now rewrite Hne.
    + destruct (String.eqb k k'); [ reflexivity | exact IH ].
Qed.

Lemma assoc_app {A : Type} k (a b : list (string * A)) :
  assoc k (a ++ b) = match assoc k a with Some v => Some v | None => assoc k b end.
Proof.
  induction a as [| [k' v'] a IH]; cbn; [ reflexivity | ].
  destruct (String.eqb k k'); [ reflexivity | exact IH ].
Qed.

(** Lookup in [{ ...a, ...b }]: the last entry of [b] for the key, else the
    entry of [a]. *)
Lemma assoc_obj_spread {A : Type} k (a b : list (string * A)) :
  assoc k (obj_spread a b) =
  match assoc k (rev b) with
  | Some v => Some v
  | None => assoc k a
  end.
Proof.
  unfold obj_spread. revert a. induction b as [| [k0 v0] b IH]; intro a;
    [ reflexivity | ].
  cbn [fold_left fst snd rev]. rewrite IH, assoc_app.
  destruct (assoc k (rev b)); [ reflexivity | ]. cbn [assoc].
  destruct (String.eqb k k0) eqn:E.
  - apply String.eqb_eq in E. subst k0. apply assoc_obj_set_same.
  - now apply assoc_obj_set_other.
Qed.

(** X5. The options [apiCall] sends keep the caller's method and body; a
    header the caller gives wins over the default one (so a caller's own
    Authorization header replaces the bearer header), a header the caller
    does not give is the default one: [Authorization: Bearer <token>] and
    nothing else. *)
Theorem mergedOptions_headers token options :
  RequestInit.method (mergedOptions token options) = RequestInit.method options /\
  RequestInit.body (mergedOptions token options) = RequestInit.body options /\
  forall name,
    assoc name (RequestInit.headers (mergedOptions token options)) =
    match assoc name (rev (RequestInit.headers options)) with
    | Some value => Some value
    | None =>
        if String.eqb name "Authorization" then Some ("Bearer " ++ token) else None
    end.
Proof.
  split; [ reflexivity | split; [ reflexivity | ] ].
  intro name. unfold mergedOptions. cbn [RequestInit.headers].
  rewrite assoc_obj_spread. reflexivity.
Qed.

(** ** The detail of an error message *)



(** ** Edges of the success path *)

(** X7. For a successful final response other than 204: under a JSON
    content type, a body that does not parse makes [apiCall] reject with the
    [SyntaxError] of [response.json()], not with the typed error and not with
    a wrapper; under any other content type, a body other than [{}] and the
    empty text that does parse as JSON is returned parsed. *)
Theorem apiCall_success_edges endpoint options baseUrl w response w' :
  token_unset (channelAccessToken w) = false ->
  fetchWithRetry (baseUrl_or_default baseUrl ++ endpoint)
    (mergedOptions (channelAccessToken w) options) 0 w = (Return response, w') ->
  Response.status response <> 204 ->
  Response.ok response = true ->
  (includes (contentType_of response) "application/json" = true ->
   JSON_parse (body_text response) = None ->
   exists message,
     apiCall endpoint options baseUrl w = (Throw (SyntaxError message), w')) /\
  (includes (contentType_of response) "application/json" = false ->
   body_text response <> "{}" ->
   body_text response <> "" ->
   forall data,
     JSON_parse (body_text response) = Some data ->
     apiCall endpoint options baseUrl w = (Return data, w')).
Proof.
  intros Htok Hrun Hn204 Hok.
  pose proof (fetchWithRetry_fresh _ _ _ _ _ _ Hrun) as Hfresh.
  apply Z.eqb_neq in Hn204. split.
  - intros Hct Hparse. eexists. unfold apiCall, bind.
    rewrite (ensureToken_ok _ Htok), Hrun, Hn204, Hok, Hct.
    unfold lift. rewrite (Response_json_fresh _ Hfresh), Hparse. reflexivity.
  - intros Hct Hne1 Hne2 data Hparse. unfold apiCall, bind.
    rewrite (ensureToken_ok _ Htok), Hrun, Hn204, Hok, Hct.
    unfold lift. rewrite (Response_text_fresh _ Hfresh).
    apply String.eqb_neq in Hne1, Hne2. rewrite Hne1, Hne2, Hparse.
    reflexivity.
Qed.

(** ** Edges of the list operations *)

(** The edges of the body shared by the two list operations. *)
Lemma list_unwrap_edges endpoint key w w' :
  (forall result v,
      apiCall endpoint GET None w = (Return result, w') ->
      opt_member (Some result) key = Some v ->
      truthy (Some v) = false ->
      list_unwrap endpoint key w = (Return (Some (JArr [])), w')) /\
  (apiCall endpoint GET None w = (Return JNull, w') ->
   exists message, list_unwrap endpoint key w = (Throw (TypeError message), w')) /\
  (forall e,
      apiCall endpoint GET None w = (Throw e, w') ->
      list_unwrap endpoint key w = (Throw e, w')).
Proof.
  split; [ | split ].
  - intros result v Hcall Hfield Hfalsy. unfold list_unwrap, bind.
    rewrite Hcall. destruct result; try discriminate;
      cbn [member ret]; rewrite Hfield; unfold js_or; now rewrite Hfalsy.
  - intro Hcall. eexists. unfold list_unwrap, bind. rewrite Hcall. reflexivity.
  - intros e Hcall. unfold list_unwrap, bind. now rewrite Hcall.
Qed.

(** ** A file path as image input *)

(** X10. [uploadRichMenuImage] with a path to an existing file: when
    reading the file throws, that error is the error of the call; when the
    file has more than 1,048,576 bytes, the call throws the typed error with
    status 400. In both cases the world is as it was: no transport call, and
    the credential is not looked at. *)
Theorem upload_file_edges richMenuId path contentType w :
  fs_existsSync (path_resolve path) = true ->
  (forall e,
      fs_readFileSync (path_resolve path) = Throw e ->
      uploadRichMenuImage richMenuId (InputString path) contentType w =
      (Throw e, w)) /\
  (forall fileBytes,
      fs_readFileSync (path_resolve path) = Return fileBytes ->
      1048576 < Z.of_nat (length fileBytes) ->
      exists message,
        uploadRichMenuImage richMenuId (InputString path) contentType w =
        (Throw (RichMenuApiError message 400 default_details), w)).
Proof.
  intro He. split.
  - intros e Hr. now apply upload_read_failed.
  - intros fileBytes Hr Hbig.
    apply (upload_file_oversized _ _ _ _ fileBytes He Hr).
    unfold oversized. now apply Z.ltb_lt.
Qed.

(** X4. Every exported operation only adds events to the trace and leaves
    the credential as it is, and every transport call it makes is made with a
    credential that is set and carries the header
    [Authorization: Bearer <credential>]. *)
Theorem call_requests_carry_bearer op w :
  exists events,
    snd (call op w) = push w events /\
    forall url init,
      In (url, init) (requests events) ->
      token_unset (channelAccessToken w) = false /\
      assoc "Authorization" (RequestInit.headers init) =
      Some ("Bearer " ++ channelAccessToken w).
Proof. apply call_bearer. Qed.

(** X8. For [listRichMenus] and [listRichMenuAliases]: a wrapping field
    ([richmenus], [aliases]) that is present but falsy (null, false, 0, the
    empty string) gives the empty array; a result of [apiCall] that is null
    makes the operation reject with a [TypeError]; an error of [apiCall] is
    rethrown as it is. *)
Theorem list_operations_edges w w' :
  ((forall result v,
       apiCall "/v2/bot/richmenu/list" GET None w = (Return result, w') ->
       opt_member (Some result) "richmenus" = Some v ->
       truthy (Some v) = false ->
       listRichMenus w = (Return (Some (JArr [])), w')) /\
   (apiCall "/v2/bot/richmenu/list" GET None w = (Return JNull, w') ->
    exists message, listRichMenus w = (Throw (TypeError message), w')) /\
   (forall e,
       apiCall "/v2/bot/richmenu/list" GET None w = (Throw e, w') ->
       listRichMenus w = (Throw e, w'))) /\
  ((forall result v,
       apiCall "/v2/bot/richmenu/alias/list" GET None w = (Return result, w') ->
       opt_member (Some result) "aliases" = Some v ->
       truthy (Some v) = false ->
       listRichMenuAliases w = (Return (Some (JArr [])), w')) /\
   (apiCall "/v2/bot/richmenu/alias/list" GET None w = (Return JNull, w') ->
    exists message, listRichMenuAliases w = (Throw (TypeError message), w')) /\
   (forall e,
       apiCall "/v2/bot/richmenu/alias/list" GET None w = (Throw e, w') ->
       listRichMenuAliases w = (Throw e, w'))).
Proof.
  split.
  - rewrite listRichMenus_unwrap. apply list_unwrap_edges.
  - rewrite listRichMenuAliases_unwrap. apply list_unwrap_edges.
Qed.

(** ** The status code of a typed error *)

Lemma apiCall_typed_error_status endpoint options baseUrl w message statusCode details :
  host_errors_untyped ->
  fst (apiCall endpoint options baseUrl w) =
  Throw (RichMenuApiError message statusCode details) ->
  is_2xx statusCode = false.
Proof.
  intros [Hnet _] H. destruct (token_unset (channelAccessToken w)) eqn:Htok.
  - rewrite (apiCall_unset _ _ _ _ Htok) in H. cbn in H.
    injection H as _ <- _. reflexivity.
  - destruct (fetchWithRetry_shape (baseUrl_or_default baseUrl ++ endpoint)
                (mergedOptions (channelAccessToken w) options) _ 0 w (le_n _))
      as [k [_ [Heq _]]].
    destruct (network _ _ _) as [reply | e] eqn:Hn in Heq; cbn [final_result] in Heq.
    + pose proof (fetchWithRetry_fresh _ _ _ _ _ _ Heq) as Hfresh.
      destruct (Response.ok (Response.of_reply reply)) eqn:Hok.
      * exfalso. unfold apiCall, bind in H.
        rewrite (ensureToken_ok _ Htok), Heq in H.
        destruct (Response.status (Response.of_reply reply) =? 204);
          [ discriminate | ].
        rewrite Hok in H.
        destruct (includes _ "application/json").
        -- unfold lift in H. rewrite (Response_json_fresh _ Hfresh) in H.
           destruct (JSON_parse _); discriminate.
        -- unfold lift in H. rewrite (Response_text_fresh _ Hfresh) in H.
           destruct (String.eqb _ "{}" || String.eqb _ ""); [ discriminate | ].
           destruct (JSON_parse _); discriminate.
      * rewrite (apiCall_error_response _ _ _ _ _ _ Htok Heq Hok) in H.
        cbn [fst] in H. injection H as _ <- _. exact Hok.
    + exfalso. unfold apiCall, bind in H.
      rewrite (ensureToken_ok _ Htok), Heq in H. cbn [fst] in H.
      injection H as ->. exact (Hnet _ _ _ _ Hn).
Qed.

Lemma download_typed_error_status richMenuId w message statusCode details :
  host_errors_untyped ->
  fst (downloadRichMenuImage richMenuId w) =
  Throw (RichMenuApiError message statusCode details) ->
  is_2xx statusCode = false.
Proof.
  intros [Hnet _] H. destruct (token_unset (channelAccessToken w)) eqn:Htok.
  - rewrite (download_unset _ _ Htok) in H. cbn in H.
    injection H as _ <- _. reflexivity.
  - destruct (fetchWithRetry_shape (download_url richMenuId)
                (download_options (channelAccessToken w)) _ 0 w (le_n _))
      as [k [_ [Heq _]]].
    unfold downloadRichMenuImage, bind in H.
    rewrite (ensureToken_ok _ Htok) in H.
    fold (download_url richMenuId) in H.
    fold (download_options (channelAccessToken w)) in H.
    destruct (network _ _ _) as [reply | e] eqn:Hn in Heq; cbn [final_result] in Heq.
    + pose proof (fetchWithRetry_fresh _ _ _ _ _ _ Heq) as Hfresh.
      rewrite Heq in H.
      destruct (Response.ok (Response.of_reply reply)) eqn:Hok; cbn [negb] in H.
      * exfalso. unfold lift in H.
        rewrite (Response_arrayBuffer_fresh _ Hfresh) in H. discriminate.
      * cbn [fst] in H. injection H as _ <- _. exact Hok.
    + exfalso. rewrite Heq in H. cbn [fst] in H.
      injection H as ->. exact (Hnet _ _ _ _ Hn).
Qed.

Lemma as_json_fst_throw (c : Run Json) w e :
  fst (as_json c w) = Throw e -> fst (c w) = Throw e.
Proof.
  unfold as_json, bind, ret. destruct (c w) as [[v | e0] w1]; cbn [fst];
    intro H; [ discriminate | now injection H as -> ].
Qed.

Lemma list_unwrap_fst_throw endpoint key w e :
  fst (as_value (list_unwrap endpoint key) w) = Throw e ->
  fst (apiCall endpoint GET None w) = Throw e \/ untyped e.
Proof.
  unfold as_value, list_unwrap, bind.
  destruct (apiCall endpoint GET None w) as [[result | e0] w1]; cbn [fst].
  - destruct result; cbn; try discriminate.
    intro H. injection H as <-. right. exact I.
  - intro H. left. now injection H as ->.
Qed.

(** X18. A typed error thrown by an exported operation never carries a
    success status: its status code is 400 or 401 from the local checks, or
    the status of a final response that was not a success. (The host's own
    errors are taken not to be of the module's error class.) *)
Theorem typed_error_status_not_2xx op w message statusCode details :
  host_errors_untyped ->
  fst (call op w) = Throw (RichMenuApiError message statusCode details) ->
  is_2xx statusCode = false.
Proof.
  intros Hhost H. destruct (local_validation op) eqn:Hloc.
  - destruct (call_accepted_form op w Hloc)
      as [[endpoint [options [baseUrl [_ [_ Hcall]]]]]
         | [[endpoint [key [_ Hcall]]] | [richMenuId ->]]].
    + rewrite Hcall in H. apply as_json_fst_throw in H.
      exact (apiCall_typed_error_status _ _ _ _ _ _ _ Hhost H).
    + rewrite Hcall in H. apply list_unwrap_fst_throw in H as [H | []].
      exact (apiCall_typed_error_status _ _ _ _ _ _ _ Hhost H).
    + cbn [call] in H. unfold as_buffer, bind in H.
      destruct (downloadRichMenuImage richMenuId w) as [[b | e] w1] eqn:Hd;
        cbn [fst] in H; [ discriminate | ].
      apply (download_typed_error_status richMenuId w message statusCode details Hhost).
      rewrite Hd. cbn [fst]. now injection H as ->.
  - destruct (call_rejected op w Hloc) as [m Hm]. rewrite Hm in H.
    cbn [fst] in H. injection H as _ <- _. reflexivity.
  - destruct (call_read_failed op w Hloc) as [p [e [Hr He]]].
    rewrite He in H. cbn [fst] in H. injection H as ->.
    destruct Hhost as [_ Hfs]. destruct (Hfs _ _ Hr).
Qed.

(** ** Changing the credential *)

(** X11. [setAccessToken] replaces the credential and touches nothing
    else; [getAccessToken] then gives the new value, and an operation called
    afterwards sends it in the bearer header of every transport call it
    makes. When the new value is empty or the placeholder, the operation
    makes no transport call whatever its input, and for an input that passes
    its local checks it throws the 401 error of the credential gate. *)
Theorem setAccessToken_then_call token op w :
  trace (snd (setAccessToken token w)) = trace w /\
  fst (getAccessToken (snd (setAccessToken token w))) = Return token /\
  (token_unset token = true ->
   snd (call op (snd (setAccessToken token w))) = snd (setAccessToken token w)) /\
  (token_unset token = true ->
   local_validation op = Accepted ->
   call op (snd (setAccessToken token w)) =
   (Throw
      (RichMenuApiError
         "尚未設定 Channel Access Token。請先透過環境變數或 setAccessToken() 設定。"
         401 (JObj [])),
    snd (setAccessToken token w))) /\
  exists events,
    snd (call op (snd (setAccessToken token w))) =
    push (snd (setAccessToken token w)) events /\
    forall url init,
      In (url, init) (requests events) ->
      assoc "Authorization" (RequestInit.headers init) = Some ("Bearer " ++ token).
Proof.
  split; [ reflexivity | split; [ reflexivity | split; [ | split ] ] ].
  - intro Htok. now apply call_unset_world.
  - intros Htok Hacc. now apply call_unset_accepted.
  - destruct (call_bearer op (snd (setAccessToken token w))) as [events [He Hreq]].
    exists events. split; [ exact He | ].
    intros url init Hin. exact (proj2 (Hreq url init Hin)).
Qed.

(** ** The routes of the back end *)

Lemma as_json_throw_inv (c : Run Json) w e w' :
  as_json c w = (Throw e, w') -> c w = (Throw e, w').
Proof.
  unfold as_json, bind, ret. destruct (c w) as [[v | e0] w1];
    intro H; [ discriminate | now injection H as -> -> ].
Qed.

Lemma as_value_throw_inv (c : Run (option Json)) w e w' :
  as_value c w = (Throw e, w') -> c w = (Throw e, w').
Proof.
  unfold as_value, bind, ret. destruct (c w) as [[v | e0] w1];
    intro H; [ discriminate | now injection H as -> -> ].
Qed.

Lemma as_buffer_throw_inv (c : Run Buffer) w e w' :
  as_buffer c w = (Throw e, w') -> c w = (Throw e, w').
Proof.
  unfold as_buffer, bind, ret. destruct (c w) as [[v | e0] w1];
    intro H; [ discriminate | now injection H as -> -> ].
Qed.

(** What the client throws, the handler of a route throws, but for a 404
    on the two routes that answer it with [data: null]. *)
Lemma handler_rethrows route op w e w' :
  client_op route = Some op ->
  call op w = (Throw e, w') ->
  maps_404_to_null route = false ->
  handler route w = (Throw e, w').
Proof.
  intros Hop Hcall Hmap.
  destruct route; cbn [client_op] in Hop; try discriminate;
    try (destruct file as [f |]; [ | discriminate ]);
    injection Hop as <-; cbn [call] in Hcall;
    first [ apply as_json_throw_inv in Hcall
          | apply as_value_throw_inv in Hcall
          | apply as_buffer_throw_inv in Hcall ];
    cbn [handler]; unfold bind; rewrite Hcall; reflexivity.
Qed.

Lemma or_null_on_404_rethrows (c : Run Json) w message statusCode details w' :
  c w = (Throw (RichMenuApiError message statusCode details), w') ->
  statusCode <> 404 ->
  or_null_on_404 c w = (Throw (RichMenuApiError message statusCode details), w').
Proof.
  intros H Hne. unfold or_null_on_404. rewrite H.
  apply Z.eqb_neq in Hne. now rewrite Hne.
Qed.

(** The statuses of the error classes are sent with their body. *)
Lemma bodiless_error_status status :
  400 <= status <= 599 -> bodiless status = false.
Proof.
  intro H. unfold bodiless.
  destruct (Z.leb_spec 100 status), (Z.leb_spec status 199),
    (Z.eqb_spec status 204), (Z.eqb_spec status 205), (Z.eqb_spec status 304);
    cbn; try reflexivity; lia.
Qed.

(** What the error-handling middleware answers to a typed error. *)
Lemma serve_rethrown route op w message statusCode details w' :
  client_op route = Some op ->
  call op w = (Throw (RichMenuApiError message statusCode details), w') ->
  (maps_404_to_null route = true -> statusCode <> 404) ->
  serve route w = (typed_error_answer message statusCode details, w').
Proof.
  intros Hop Hcall H404. unfold serve.
  destruct (maps_404_to_null route) eqn:Hmap.
  - specialize (H404 eq_refl).
    destruct route; try discriminate; cbn [client_op] in Hop;
      injection Hop as <-; cbn [call] in Hcall;
      apply as_json_throw_inv in Hcall; cbn [handler];
      rewrite (or_null_on_404_rethrows _ _ _ _ _ _ Hcall H404); reflexivity.
  - rewrite (handler_rethrows _ _ _ _ _ Hop Hcall Hmap). reflexivity.
Qed.

(** X12. A typed error of the client reaches the caller of the back end
    as it is: when its status code is one of the error classes (400 to 599),
    the route answers with that status and the body
    [{ success: false, error: { code, message, details } }]; when it is 304,
    the route answers 304 and, as with every 304, no body is sent. The two
    routes that read a menu assignment do so for every such status code but
    404. In particular, with the credential unset, every route that calls the
    client with an input that passes the local checks answers 401 and makes
    no transport call. *)
Theorem serve_typed_error route op w :
  client_op route = Some op ->
  (forall message statusCode details w',
      call op w = (Throw (RichMenuApiError message statusCode details), w') ->
      (maps_404_to_null route = true -> statusCode <> 404) ->
      (400 <= statusCode <= 599 ->
       serve route w =
       ({| answer_status := statusCode;
           answer_body :=
             ResJson
               (JObj [("success", JBool false);
                      ("error", JObj [("code", JNum (inject_Z statusCode));
                                      ("message", JStr message);
                                      ("details", details)])]) |}, w')) /\
      (statusCode = 304 ->
       serve route w = ({| answer_status := 304; answer_body := ResEmpty |}, w'))) /\
  (token_unset (channelAccessToken w) = true ->
   local_validation op = Accepted ->
   serve route w =
   ({| answer_status := 401;
       answer_body :=
         ResJson
           (JObj [("success", JBool false);
                  ("error",
                   JObj [("code", JNum (inject_Z 401));
                         ("message",
                          JStr "尚未設定 Channel Access Token。請先透過環境變數或 setAccessToken() 設定。");
                         ("details", JObj [])])]) |}, w)).
Proof.
  intro Hop. split.
  - intros message statusCode details w' Hcall H404.
    rewrite (serve_rethrown _ _ _ _ _ _ _ Hop Hcall H404).
    unfold typed_error_answer, json_answer. split.
    + intro Hrange.
      replace (statusCode =? 0) with false by (symmetry; apply Z.eqb_neq; lia).
      rewrite (bodiless_error_status _ Hrange). reflexivity.
    + intros ->. reflexivity.
  - intros Htok Hacc.
    rewrite (serve_rethrown _ _ _ _ 401 _ w Hop (call_unset_accepted _ _ Htok Hacc)).
    + reflexivity.
    + intros _. discriminate.
Qed.

(** X13. [GET /api/default-richmenu] and [GET /api/users/:userId/richmenu]
    answer a typed error of status 404 (no assignment on the remote side)
    with status 200 and [{ success: true, data: null }], and never answer
    with the status 404 themselves. *)
Theorem serve_not_found_as_null route w :
  maps_404_to_null route = true ->
  (forall op message details w',
      client_op route = Some op ->
      call op w = (Throw (RichMenuApiError message 404 details), w') ->
      serve route w = (json_answer 200 (success_data (Some JNull)), w')) /\
  answer_status (fst (serve route w)) <> 404.
Proof.
  intro Hmap.
  assert (Hnever : forall c : Run Json,
             answer_status
               (fst match or_null_on_404 c w with
                    | (Return answer, w') => (answer, w')
                    | (Throw e, w') => (errorMiddleware (HandlerError e), w')
                    end) <> 404).
  { intro c. unfold or_null_on_404.
    destruct (c w) as [[result | e] w1]; [ discriminate | ].
    destruct e as [m sc d | m | m | m]; try discriminate.
    destruct (sc =? 404) eqn:E404; [ discriminate | ].
    cbn. destruct (sc =? 0); [ discriminate | now apply Z.eqb_neq ]. }
  destruct route; try discriminate; split.
  - intros op message details w' Hop Hcall. cbn [client_op] in Hop.
    injection Hop as <-. cbn [call] in Hcall. apply as_json_throw_inv in Hcall.
    unfold serve. cbn [handler]. unfold or_null_on_404. rewrite Hcall.
    reflexivity.
  - apply Hnever.
  - intros op message details w' Hop Hcall. cbn [client_op] in Hop.
    injection Hop as <-. cbn [call] in Hcall. apply as_json_throw_inv in Hcall.
    unfold serve. cbn [handler]. unfold or_null_on_404. rewrite Hcall.
    reflexivity.
  - apply Hnever.
Qed.

(** X14. [POST /api/token], for a [token] that is absent or a string:
    the route answers 400 and leaves the credential as it was when the token
    is absent, empty, or of [length] (UTF-16 code units) below 10; otherwise
    it answers 200, the credential is the token sent, the trace is untouched,
    and the credential gate of the client then passes unless the token is
    the placeholder value. *)
Theorem post_token_route token w :
  ((token = None \/ exists t, token = Some t /\ (JS_length t < 10)%nat) ->
   serve (POST_token token) w =
   ({| answer_status := 400;
       answer_body :=
         ResJson (JObj [("success", JBool false);
                        ("error", JStr "Token 格式不正確")]) |}, w)) /\
  (forall t,
      token = Some t ->
      (10 <= JS_length t)%nat ->
      serve (POST_token token) w =
      ({| answer_status := 200;
          answer_body :=
            ResJson (JObj [("success", JBool true);
                           ("message", JStr "Token 已設定")]) |},
       {| channelAccessToken := t; trace := trace w |}) /\
      (token_unset t = false <-> t <> "your_channel_access_token_here")).
Proof.
  split.
  - intros [-> | [t [-> Hlen]]]; [ reflexivity | ].
    unfold serve. cbn [handler]. apply Nat.ltb_lt in Hlen.
    rewrite Hlen, orb_true_r. reflexivity.
  - intros t -> Hlen.
    assert (Hne : String.eqb t "" = false).
    { destruct t; [ cbn in Hlen; lia | reflexivity ]. }
    split.
    + unfold serve. cbn [handler]. apply Nat.ltb_ge in Hlen.
      rewrite Hlen, Hne. reflexivity.
    + unfold token_unset. rewrite Hne. cbn [orb]. split.
      * intros H ->. now rewrite String.eqb_refl in H.
      * intro H. now apply String.eqb_neq.
Qed.

Lemma serve_snd route w : snd (serve route w) = snd (handler route w).
Proof. unfold serve. now destruct (handler route w) as [[a | e] w1]. Qed.

(** X15. [GET /api/token/status] answers 200 and touches nothing. Its
    [isSet] is truthy exactly when the credential is neither empty nor the
    placeholder and its [length] (UTF-16 code units) is above 10; when it
    is, the credential gate of the client passes and [preview] is
    [token.substring(0, 20)] followed by three dots, otherwise [preview] is
    null. For an empty credential [isSet] is the empty string; a credential
    of [length] exactly 10, which [POST /api/token] accepts and the client
    uses, is reported with [isSet: false]. *)
Theorem token_status_route w :
  exists isSet preview,
    serve GET_token_status w =
    ({| answer_status := 200;
        answer_body := ResJson (JObj [("isSet", isSet); ("preview", preview)]) |},
     w) /\
    (truthy (Some isSet) = true <->
     token_unset (channelAccessToken w) = false /\
     (10 < JS_length (channelAccessToken w))%nat) /\
    (truthy (Some isSet) = true ->
     ensureToken w = (Return (channelAccessToken w), w) /\
     preview = JStr (String_substring (channelAccessToken w) 0 20 ++ "...")) /\
    (truthy (Some isSet) = false -> preview = JNull) /\
    (channelAccessToken w = "" -> isSet = JStr "") /\
    (JS_length (channelAccessToken w) = 10%nat ->
     isSet = JBool false /\ token_unset (channelAccessToken w) = false).
Proof.
  eexists _, _. split; [ reflexivity | ].
  unfold token_unset.
  destruct (String.eqb (channelAccessToken w) "") eqn:Hempty.
  - apply String.eqb_eq in Hempty. rewrite Hempty. cbn.
    repeat split; try discriminate; try reflexivity;
      intros [H _]; discriminate.
  - destruct (String.eqb (channelAccessToken w) "your_channel_access_token_here")
      eqn:Hph.
    + apply String.eqb_eq in Hph. rewrite Hph. cbn.
      repeat split; try discriminate; try reflexivity;
        intros [H _]; discriminate.
    + cbn [orb truthy].
      split; [ | split; [ | split; [ | split ] ] ].
      * split; [ intro H; split; [ reflexivity | now apply Nat.ltb_lt ]
               | intros [_ H]; now apply Nat.ltb_lt ].
      * intro H. rewrite H. split; [ | reflexivity ].
        apply ensureToken_ok. unfold token_unset. now rewrite Hempty, Hph.
      * intro H. now rewrite H.
      * intros H. rewrite H in Hempty. discriminate.
      * intro H. rewrite H. split; reflexivity.
Qed.

(** The Content-Type of the request an upload makes for a Buffer. *)
Lemma upload_buffer_requests richMenuId b contentType w :
  exists events,
    snd (uploadRichMenuImage richMenuId (InputBuffer b) contentType w) =
    push w events /\
    forall url init,
      In (url, init) (requests events) ->
      assoc "Content-Type" (RequestInit.headers init) =
      Some (contentType_or_default contentType).
Proof.
  destruct (oversized b) eqn:Ho.
  - destruct (upload_oversized richMenuId b contentType w Ho) as [m ->].
    exists []. rewrite push_nil. split; [ reflexivity | intros url init [] ].
  - rewrite (upload_buffer_accepted _ _ _ _ Ho).
    destruct (apiCall_requests ("/v2/bot/richmenu/" ++ richMenuId ++ "/content")
                (RequestInit.mk (Some "POST")
                   [("Content-Type", contentType_or_default contentType)]
                   (Some (BodyBuffer b)))
                (Some (DATA_API_BASE_URL cfg)) w) as [events [He Hreq]].
    exists events. split; [ exact He | ].
    intros url init Hin. destruct (Hreq url init Hin) as [_ [_ ->]].
    reflexivity.
Qed.

(** X16. [POST /api/richmenus/:id/image]: without a file the route answers
    400 and the client is not called; the file filter keeps exactly the MIME
    types of [config.ALLOWED_IMAGE_TYPES]; and for a file the filter kept,
    every transport call the route causes has that file's MIME type, one of
    the allowed ones, as its Content-Type. *)
Theorem upload_route id w :
  serve (POST_richmenus_id_image id None) w =
  (json_answer 400
     (JObj [("success", JBool false); ("error", JStr "未提供圖片檔案")]), w) /\
  (forall m, fileFilter m = Keep <-> In m (ALLOWED_IMAGE_TYPES config)) /\
  (forall f,
      fileFilter (mimetype f) = Keep ->
      exists events,
        snd (serve (POST_richmenus_id_image id (Some f)) w) = push w events /\
        forall url init,
          In (url, init) (requests events) ->
          assoc "Content-Type" (RequestInit.headers init) = Some (mimetype f) /\
          In (mimetype f) (ALLOWED_IMAGE_TYPES config)).
Proof.
  assert (Hfilter : forall m, fileFilter m = Keep <-> In m (ALLOWED_IMAGE_TYPES config)).
  { intro m. unfold fileFilter. cbn [existsb ALLOWED_IMAGE_TYPES config In orb].
    destruct (String.eqb_spec m "image/png") as [-> | Hpng].
    - cbn. tauto.
    - destruct (String.eqb_spec m "image/jpeg") as [-> | Hjpeg].
      + cbn. tauto.
      + cbn. split; [ discriminate | ].
        intros [H | [H | []]]; congruence. }
  split; [ reflexivity | split; [ exact Hfilter | ] ].
  intros f Hkeep.
  destruct (upload_buffer_requests id (buffer f) (Some (mimetype f)) w)
    as [events [He Hreq]].
  exists events. split.
  - rewrite serve_snd. cbn [handler]. unfold bind.
    destruct (uploadRichMenuImage id (InputBuffer (buffer f)) (Some (mimetype f)) w)
      as [[v | e] w1]; exact He.
  - intros url init Hin. split; [ exact (Hreq url init Hin) | ].
    now apply Hfilter.
Qed.

(** X17. A path accepted by the image path prompt of the command-line tool
    (the file exists and its lower-cased extension is .png, .jpg or .jpeg)
    is uploaded without a missing-file error, and every transport call of
    that upload has the Content-Type of that extension: [image/png] for
    .png, [image/jpeg] for .jpg and .jpeg. When the file can be read, is
    within the size limit and the credential is set, the upload does make
    such a call. ([path.resolve] of a resolved path is taken to be that
    path.) *)
Theorem cli_upload_contentType richMenuId imagePath w :
  path_resolve (path_resolve imagePath) = path_resolve imagePath ->
  validate_imagePath imagePath = Valid ->
  exists ext mime,
    ext = String_toLowerCase (path_extname (path_resolve imagePath)) /\
    ((ext = ".png" /\ mime = "image/png") \/
     ((ext = ".jpg" \/ ext = ".jpeg") /\ mime = "image/jpeg")) /\
    fs_existsSync (path_resolve (path_resolve imagePath)) = true /\
    (exists events,
        snd (cli_upload richMenuId imagePath w) = push w events /\
        forall url init,
          In (url, init) (requests events) ->
          assoc "Content-Type" (RequestInit.headers init) = Some mime) /\
    (forall b,
        fs_readFileSync (path_resolve imagePath) = Return b ->
        oversized b = false ->
        token_unset (channelAccessToken w) = false ->
        exists rest,
          snd (cli_upload richMenuId imagePath w) =
          push w
            (EvFetch
               (DATA_API_BASE_URL cfg ++ "/v2/bot/richmenu/" ++ richMenuId ++ "/content")
               (RequestInit.mk (Some "POST")
                  [("Authorization", "Bearer " ++ channelAccessToken w);
                   ("Content-Type", mime)]
                  (Some (BodyBuffer b))) :: rest)).
Proof.
  intros Hidem Hvalid. unfold validate_imagePath in Hvalid.
  destruct (fs_existsSync (path_resolve imagePath)) eqn:He; cbn [negb] in Hvalid;
    [ | discriminate ].
  destruct (existsb _ [".png"; ".jpg"; ".jpeg"]) eqn:Hext; cbn [negb] in Hvalid;
    [ | discriminate ].
  assert (He' : fs_existsSync (path_resolve (path_resolve imagePath)) = true)
    by now rewrite Hidem.
  set (ext := String_toLowerCase (path_extname (path_resolve imagePath))) in *.
  assert (Hmime : exists mime,
             ((ext = ".png" /\ mime = "image/png") \/
              ((ext = ".jpg" \/ ext = ".jpeg") /\ mime = "image/jpeg")) /\
             forall contentType,
               detect_contentType (path_resolve (path_resolve imagePath)) contentType
               = mime).
  { rewrite Hidem. unfold detect_contentType. fold ext.
    cbn [existsb] in Hext.
    destruct (String.eqb_spec ext ".jpg") as [Hj | Hj].
    - exists "image/jpeg". split; [ right; tauto | reflexivity ].
    - destruct (String.eqb_spec ext ".jpeg") as [Hjp | Hjp].
      + exists "image/jpeg". split; [ right; tauto | reflexivity ].
      + destruct (String.eqb_spec ext ".png") as [Hp | Hp].
        * exists "image/png". split; [ left; tauto | reflexivity ].
        * discriminate. }
  destruct Hmime as [mime [Hcases Hdetect]].
  exists ext, mime.
  split; [ reflexivity | split; [ exact Hcases | split; [ exact He' | split ] ] ].
  - unfold cli_upload.
    destruct (fs_readFileSync (path_resolve (path_resolve imagePath)))
      as [b | e] eqn:Hr.
    + destruct (oversized b) eqn:Ho.
      * destruct (upload_file_oversized richMenuId (path_resolve imagePath) None w b
                    He' Hr Ho) as [m ->].
        exists []. rewrite push_nil. split; [ reflexivity | intros url init [] ].
      * rewrite (upload_file_accepted _ _ _ _ _ He' Hr Ho), Hdetect.
        destruct (apiCall_requests ("/v2/bot/richmenu/" ++ richMenuId ++ "/content")
                    (RequestInit.mk (Some "POST") [("Content-Type", mime)]
                       (Some (BodyBuffer b)))
                    (Some (DATA_API_BASE_URL cfg)) w) as [events [Hev Hreq]].
        exists events. split; [ exact Hev | ].
        intros url init Hin. destruct (Hreq url init Hin) as [_ [_ ->]].
        reflexivity.
    + exists []. rewrite push_nil. split; [ | intros url init [] ].
      rewrite (upload_read_failed _ _ _ _ _ He' Hr). reflexivity.
  - intros b Hr Ho Htok. unfold cli_upload.
    rewrite <- Hidem in Hr.
    rewrite (upload_file_accepted _ _ _ _ _ He' Hr Ho), Hdetect.
    exact (apiCall_reaches_network _ _ _ _ Htok).
Qed.

End Client.

(** * The client under the shipped configuration, and on concrete inputs *)

Lemma push_inj (w : World) (a b : list Event) : push w a = push w b -> a = b.
Proof.
  unfold push. intro H. injection H as H. now apply app_inv_head in H.
Qed.

(** ** Configuration fields the client does not read *)

Lemma fetchWithRetry_config {host : Host} (cfg1 cfg2 : Config) url options :
  MAX_RETRIES cfg1 = MAX_RETRIES cfg2 ->
  RETRY_BASE_DELAY_MS cfg1 = RETRY_BASE_DELAY_MS cfg2 ->
  forall n retryCount w,
    (MAX_RETRIES cfg1 - retryCount <= n)%nat ->
    fetchWithRetry cfg1 url options retryCount w =
    fetchWithRetry cfg2 url options retryCount w.
Proof.
  intros Hmax Hbase n. induction n as [| n IH]; intros retryCount w Hn;
    rewrite !fetchWithRetry_step; unfold bind;
    destruct (fetch url options w) as [[response | e] w1]; try reflexivity;
    rewrite <- Hmax, <- Hbase;
    destruct ((Response.status response =? 429)
              && (retryCount <? MAX_RETRIES cfg1)%nat) eqn:E; try reflexivity;
    apply andb_prop in E as [_ E]; apply Nat.ltb_lt in E; try lia.
  unfold console_warn, delay, emit. cbn. apply IH. lia.
Qed.

Lemma apiCall_with_allowed {host : Host} cfg allowed endpoint options baseUrl w :
  apiCall (with_allowed cfg allowed) endpoint options baseUrl w =
  apiCall cfg endpoint options baseUrl w.
Proof.
  unfold apiCall, bind. destruct (ensureToken w) as [[token | e] w0];
    [ | reflexivity ].
  change (baseUrl_or_default (with_allowed cfg allowed) baseUrl)
    with (baseUrl_or_default cfg baseUrl).
  rewrite (fetchWithRetry_config (with_allowed cfg allowed) cfg _ _
             eq_refl eq_refl _ 0%nat w0 (le_n _)).
  reflexivity.
Qed.

(** No exported operation reads [config.ALLOWED_IMAGE_TYPES]. *)
Lemma call_with_allowed {host : Host} cfg allowed op w :
  call (with_allowed cfg allowed) op w = call cfg op w.
Proof.
  destruct op; cbn [call];
    unfold as_json, as_value, as_buffer,
      listRichMenus, getRichMenu, createRichMenu, validateRichMenu, deleteRichMenu,
      setDefaultRichMenu, getDefaultRichMenu,
      cancelDefaultRichMenu, linkRichMenuToUser, unlinkRichMenuFromUser,
      getUserRichMenu, bulkLinkRichMenu, bulkUnlinkRichMenu, createRichMenuAlias,
      updateRichMenuAlias, getRichMenuAlias, deleteRichMenuAlias,
      listRichMenuAliases, bind;
    rewrite ?apiCall_with_allowed; try reflexivity.
  - unfold uploadRichMenuImage, bind.
    match goal with
    | |- context [match ?c w with _ => _ end] =>
        destruct (c w) as [[loaded | e] w1]
    end; [ | reflexivity ].
    destruct (1024 * 1024 <? Z.of_nat (length (fst loaded))); [ reflexivity | ].
    change (DATA_API_BASE_URL (with_allowed cfg allowed))
      with (DATA_API_BASE_URL cfg).
    rewrite apiCall_with_allowed. reflexivity.
  - unfold downloadRichMenuImage, bind.
    destruct (ensureToken w) as [[token | e] w0]; [ | reflexivity ].
    change (DATA_API_BASE_URL (with_allowed cfg allowed))
      with (DATA_API_BASE_URL cfg).
    rewrite (fetchWithRetry_config (with_allowed cfg allowed) cfg _ _
               eq_refl eq_refl _ 0%nat w0 (le_n _)).
    reflexivity.
  - destruct (500 <? length userIds)%nat; [ reflexivity | ].
    rewrite apiCall_with_allowed. reflexivity.
  - destruct (500 <? length userIds)%nat; [ reflexivity | ].
    rewrite apiCall_with_allowed. reflexivity.
Qed.

(** ** The two base addresses *)

(** C7. Under the shipped configuration, every transport call of an image
    operation ([uploadRichMenuImage], [downloadRichMenuImage]) goes to an
    address under the data-plane base address and not under the control-plane
    one, and every transport call of any other exported operation goes to an
    address under the control-plane base address and not under the data-plane
    one; with a credential and an input that passes the local checks, the
    operation does make such a call. *)
Theorem operations_use_their_base_address {host : Host} (op : Op) (w : World) :
  exists events,
    snd (call config op w) = push w events /\
    (forall url init,
        In (url, init) (requests events) ->
        if is_image_op op
        then String.prefix (DATA_API_BASE_URL config) url = true /\
             String.prefix (API_BASE_URL config) url = false
        else String.prefix (API_BASE_URL config) url = true /\
             String.prefix (DATA_API_BASE_URL config) url = false) /\
    (token_unset (channelAccessToken w) = false ->
     local_validation op = Accepted ->
     exists url init rest, events = EvFetch url init :: rest).
Proof.
  destruct (call_only_requests config op w) as [events [He Honly]].
  exists events. split; [ exact He | split ].
  - intros url init Hin. destruct (Honly _ _ Hin) as [path ->].
    unfold base_url_of. destruct (is_image_op op); split; cbn;
      try reflexivity; destruct path; reflexivity.
  - intros Htok Hacc.
    destruct (call_accepted_sends config op w Htok Hacc) as [url [init [rest Hs]]].
    rewrite He in Hs. apply push_inj in Hs. now exists url, init, rest.
Qed.

(** ** The content type of an upload *)

(** C10. For a Buffer input of at most 1 MiB, [uploadRichMenuImage] sends
    the caller's [contentType] as the Content-Type header of its request,
    whatever the string is, and [image/png] when the argument is omitted: no
    operation of the client reads [config.ALLOWED_IMAGE_TYPES], so no content
    type is refused locally.  Only for a file path is the content type found
    from the extension: [image/jpeg] for .jpg and .jpeg, [image/png] for
    .png, and the argument or its default for any other extension. *)
Theorem upload_forwards_contentType {host : Host} (cfg : Config)
    richMenuId (b : Buffer) (w : World) :
  token_unset (channelAccessToken w) = false ->
  oversized b = false ->
  (forall contentType,
      exists rest,
        snd (uploadRichMenuImage cfg richMenuId (InputBuffer b) (Some contentType) w) =
        push w
          (EvFetch
             (DATA_API_BASE_URL cfg ++ "/v2/bot/richmenu/" ++ richMenuId ++ "/content")
             (RequestInit.mk (Some "POST")
                [("Authorization", "Bearer " ++ channelAccessToken w);
                 ("Content-Type", contentType)]
                (Some (BodyBuffer b)))
             :: rest)) /\
  (exists rest,
      snd (uploadRichMenuImage cfg richMenuId (InputBuffer b) None w) =
      push w
        (EvFetch
           (DATA_API_BASE_URL cfg ++ "/v2/bot/richmenu/" ++ richMenuId ++ "/content")
           (RequestInit.mk (Some "POST")
              [("Authorization", "Bearer " ++ channelAccessToken w);
               ("Content-Type", "image/png")]
              (Some (BodyBuffer b)))
           :: rest)) /\
  (forall allowed op, call (with_allowed cfg allowed) op w = call cfg op w) /\
  (forall contentType path fileBytes,
      fs_existsSync (path_resolve path) = true ->
      fs_readFileSync (path_resolve path) = Return fileBytes ->
      oversized fileBytes = false ->
      exists rest,
        snd (uploadRichMenuImage cfg richMenuId (InputString path) contentType w) =
        push w
          (EvFetch
             (DATA_API_BASE_URL cfg ++ "/v2/bot/richmenu/" ++ richMenuId ++ "/content")
             (RequestInit.mk (Some "POST")
                [("Authorization", "Bearer " ++ channelAccessToken w);
                 ("Content-Type",
                  let ext := String_toLowerCase (path_extname (path_resolve path)) in
                  if String.eqb ext ".jpg" || String.eqb ext ".jpeg" then "image/jpeg"
                  else if String.eqb ext ".png" then "image/png"
                  else match contentType with
                       | Some ct => ct
                       | None => "image/png"
                       end)]
                (Some (BodyBuffer fileBytes)))
             :: rest)).
Proof.
  intros Htok Hsize.
  assert (Hbuffer : forall contentType,
             exists rest,
               snd (uploadRichMenuImage cfg richMenuId (InputBuffer b) contentType w) =
               push w
                 (EvFetch
                    (DATA_API_BASE_URL cfg ++ "/v2/bot/richmenu/" ++ richMenuId
                     ++ "/content")
                    (RequestInit.mk (Some "POST")
                       [("Authorization", "Bearer " ++ channelAccessToken w);
                        ("Content-Type", contentType_or_default contentType)]
                       (Some (BodyBuffer b)))
                    :: rest)).
  { intro contentType. rewrite (upload_buffer_accepted _ _ _ _ _ Hsize).
    exact (apiCall_reaches_network cfg
             ("/v2/bot/richmenu/" ++ richMenuId ++ "/content")
             (RequestInit.mk (Some "POST")
                [("Content-Type", contentType_or_default contentType)]
                (Some (BodyBuffer b)))
             (Some (DATA_API_BASE_URL cfg)) w Htok). }
  split; [ | split; [ | split ] ].
  - intro contentType. exact (Hbuffer (Some contentType)).
  - exact (Hbuffer None).
  - intros allowed op. apply call_with_allowed.
  - intros contentType path fileBytes He Hr Ho.
    rewrite (upload_file_accepted _ _ _ _ _ _ He Hr Ho).
    exact (apiCall_reaches_network cfg
             ("/v2/bot/richmenu/" ++ richMenuId ++ "/content")
             (RequestInit.mk (Some "POST")
                [("Content-Type",
                  detect_contentType (path_resolve path)
                    (contentType_or_default contentType))]
                (Some (BodyBuffer fileBytes)))
             (Some (DATA_API_BASE_URL cfg)) w Htok).
Qed.

(** ** An error body that is not JSON *)

(** C3, at a 500 reply whose body is the text [Internal Server Error]:
    [response.json()] has read the body before it fails to parse it, so the
    [response.text()] of the [catch] rejects and the fixed text stands in for
    the reply's own text, in [details] and in the message. *)
Theorem apiCall_error_text_body_is_lost :
  @apiCall (host_replying (plain_reply 500 "Internal Server Error")) config
    "/v2/bot/richmenu/list" GET None signed_in =
  (Throw (RichMenuApiError
            "API 呼叫失敗 (HTTP 500)：無法解析錯誤內容" 500
            (JObj [("message", JStr "無法解析錯誤內容")])),
   push signed_in
     [EvFetch "https://api.line.me/v2/bot/richmenu/list"
        (RequestInit.mk None [("Authorization", "Bearer token-1")] None)]).
Proof. vm_compute. reflexivity. Qed.

(** ** Concrete runs *)

Ltac run_scripted := vm_compute; reflexivity.

Lemma big_buffer_length : Z.of_nat (length big_buffer) = 1048577.
Proof. unfold big_buffer. rewrite repeat_length. apply N_nat_Z. Qed.


(** C2 as stated fails: with the credential unset, a bulk link of 501 user
    IDs throws status 400, not 401. *)
Lemma gate_on_every_input_fails :
  ~ @gate_on_every_input (host_replying (plain_reply 200 "{}")) config.
Proof.
  intro H.
  destruct (H (OpBulkLinkRichMenu "menu-1" (repeat "U1" 501)) signed_out eq_refl)
    as [message [details Hcall]].
  vm_compute in Hcall. discriminate Hcall.
Qed.

(** C2 (as amended) with the credential unset: a get stops at 401, a bulk
    link of 501 user IDs at 400, and the world is untouched. *)
Lemma credential_gate_witness :
  snd (@call (host_replying (plain_reply 200 "{}")) config
         (OpGetRichMenu "menu-1") signed_out) = signed_out /\
  fst (@call (host_replying (plain_reply 200 "{}")) config
         (OpGetRichMenu "menu-1") signed_out) = Throw unauthenticated /\
  exists message,
    fst (@call (host_replying (plain_reply 200 "{}")) config
           (OpBulkLinkRichMenu "menu-1" (repeat "U1" 501)) signed_out) =
    Throw (RichMenuApiError message 400 default_details).
Proof.
  destruct (@credential_gate (host_replying (plain_reply 200 "{}")) config
              (OpGetRichMenu "menu-1") signed_out eq_refl) as [Hw [Hacc _]].
  destruct (@credential_gate (host_replying (plain_reply 200 "{}")) config
              (OpBulkLinkRichMenu "menu-1" (repeat "U1" 501)) signed_out eq_refl)
    as [_ [_ Hrej]].
  split; [ exact Hw | split; [ exact (Hacc eq_refl) | exact (Hrej eq_refl) ] ].
Defined.





(** C5 as stated fails: for a 404 reply whose body is
    [{"message":"bad"}], the download error has empty [details], not the
    body the remote service sent. *)
Lemma download_error_drops_remote_body :
  ~ @download_error_carries_remote_body
      (host_replying (json_reply 404 text_message_bad)) config.
Proof.
  intro H.
  destruct (H "menu-1" signed_in
              (Response.of_reply (json_reply 404 text_message_bad))
              (push signed_in
                 [EvFetch (download_url config "menu-1") (download_options "token-1")])
              eq_refl ltac:(run_scripted) eq_refl) as [message Hcall].
  vm_compute in Hcall. discriminate Hcall.
Qed.

(** C5 (as amended) on concrete replies: no credential, a 404, a 200. *)
Lemma downloadRichMenuImage_outcomes_witness :
  @downloadRichMenuImage (host_replying (plain_reply 200 "PNG")) config
    "menu-1" signed_out = (Throw unauthenticated, signed_out) /\
  fst (@downloadRichMenuImage (host_replying (json_reply 404 text_message_bad)) config
         "menu-1" signed_in) =
  Throw (RichMenuApiError "無法下載圖片（HTTP 404）" 404 default_details) /\
  fst (@downloadRichMenuImage (host_replying (plain_reply 200 "PNG")) config
         "menu-1" signed_in) = Return (bytes "PNG").
Proof.
  split; [ | split ].
  - exact (proj1 (@downloadRichMenuImage_outcomes
                    (host_replying (plain_reply 200 "PNG")) config
                    "menu-1" signed_out) eq_refl).
  - destruct (proj2 (@downloadRichMenuImage_outcomes
                       (host_replying (json_reply 404 text_message_bad)) config
                       "menu-1" signed_in) eq_refl) as [_ H].
    destruct (H (Response.of_reply (json_reply 404 text_message_bad))
                (push signed_in
                   [EvFetch (download_url config "menu-1")
                      (download_options "token-1")])) as [Herr _];
      [ run_scripted | ].
    rewrite (Herr eq_refl). reflexivity.
  - destruct (proj2 (@downloadRichMenuImage_outcomes
                       (host_replying (plain_reply 200 "PNG")) config
                       "menu-1" signed_in) eq_refl) as [_ H].
    destruct (H (Response.of_reply (plain_reply 200 "PNG"))
                (push signed_in
                   [EvFetch (download_url config "menu-1")
                      (download_options "token-1")])) as [_ Hok];
      [ run_scripted | ].
    rewrite (Hok eq_refl). reflexivity.
Defined.

(** C6 on a buffer of 1,048,577 bytes, and on 501 and 500 user IDs. *)
Lemma local_validation_short_circuits_witness :
  (exists message,
      @uploadRichMenuImage (host_replying (plain_reply 200 "{}")) config
        "menu-1" (InputBuffer big_buffer) None signed_in =
      (Throw (RichMenuApiError message 400 default_details), signed_in)) /\
  (exists message,
      @bulkLinkRichMenu (host_replying (plain_reply 200 "{}")) config
        "menu-1" (repeat "U1" 501) signed_in =
      (Throw (RichMenuApiError message 400 default_details), signed_in)) /\
  (exists message,
      @bulkUnlinkRichMenu (host_replying (plain_reply 200 "{}")) config
        (repeat "U1" 501) signed_in =
      (Throw (RichMenuApiError message 400 default_details), signed_in)) /\
  (exists init rest,
      snd (@bulkLinkRichMenu (host_replying (plain_reply 200 "{}")) config
             "menu-1" (repeat "U1" 500) signed_in) =
      push signed_in
        (EvFetch "https://api.line.me/v2/bot/richmenu/bulk/link" init :: rest)) /\
  (exists init rest,
      snd (@bulkUnlinkRichMenu (host_replying (plain_reply 200 "{}")) config
             (repeat "U1" 500) signed_in) =
      push signed_in
        (EvFetch "https://api.line.me/v2/bot/richmenu/bulk/unlink" init :: rest)).
Proof.
  destruct (@local_validation_short_circuits
              (host_replying (plain_reply 200 "{}")) config signed_in)
    as [Hup [Hlink [Hunlink [Hlink500 Hunlink500]]]].
  split; [ | split; [ | split; [ | split ] ] ].
  - apply Hup. rewrite big_buffer_length. reflexivity.
  - apply Hlink. rewrite repeat_length. apply Nat.lt_succ_diag_r.
  - apply Hunlink. rewrite repeat_length. apply Nat.lt_succ_diag_r.
  - apply Hlink500; [ apply repeat_length | reflexivity ].
  - apply Hunlink500; [ apply repeat_length | reflexivity ].
Defined.

(** C7 on an upload and on a get. *)
Lemma operations_use_their_base_address_witness :
  (exists url init rest,
      snd (@call (host_replying (plain_reply 200 "{}")) config
             (OpUploadRichMenuImage "menu-1" (InputBuffer [x00]) None) signed_in) =
      push signed_in (EvFetch url init :: rest) /\
      String.prefix "https://api-data.line.me" url = true /\
      String.prefix "https://api.line.me" url = false) /\
  (exists url init rest,
      snd (@call (host_replying (plain_reply 200 "{}")) config
             (OpGetRichMenu "menu-1") signed_in) =
      push signed_in (EvFetch url init :: rest) /\
      String.prefix "https://api.line.me" url = true /\
      String.prefix "https://api-data.line.me" url = false).
Proof.
  split.
  - destruct (@operations_use_their_base_address
                (host_replying (plain_reply 200 "{}"))
                (OpUploadRichMenuImage "menu-1" (InputBuffer [x00]) None) signed_in)
      as [events [He [Hreq Hsend]]].
    destruct (Hsend eq_refl eq_refl) as [url [init [rest Hev]]].
    subst events. exists url, init, rest.
    split; [ exact He | ].
    exact (Hreq url init (or_introl eq_refl)).
  - destruct (@operations_use_their_base_address
                (host_replying (plain_reply 200 "{}"))
                (OpGetRichMenu "menu-1") signed_in)
      as [events [He [Hreq Hsend]]].
    destruct (Hsend eq_refl eq_refl) as [url [init [rest Hev]]].
    subst events. exists url, init, rest.
    split; [ exact He | ].
    exact (Hreq url init (or_introl eq_refl)).
Defined.





(** C9 in a world whose credential was never set. *)
Lemma local_validation_precedes_gate_witness :
  (exists message,
      @uploadRichMenuImage (host_replying (plain_reply 200 "{}")) config
        "menu-1" InputOther None signed_out =
      (Throw (RichMenuApiError message 400 default_details), signed_out)) /\
  (exists message,
      @uploadRichMenuImage (host_replying (plain_reply 200 "{}")) config
        "menu-1" (InputString "missing.png") None signed_out =
      (Throw (RichMenuApiError message 400 default_details), signed_out)) /\
  (exists message,
      @uploadRichMenuImage (host_replying (plain_reply 200 "{}")) config
        "menu-1" (InputBuffer big_buffer) None signed_out =
      (Throw (RichMenuApiError message 400 default_details), signed_out)) /\
  (exists message,
      @bulkLinkRichMenu (host_replying (plain_reply 200 "{}")) config
        "menu-1" (repeat "U1" 501) signed_out =
      (Throw (RichMenuApiError message 400 default_details), signed_out)) /\
  (exists message,
      @bulkUnlinkRichMenu (host_replying (plain_reply 200 "{}")) config
        (repeat "U1" 501) signed_out =
      (Throw (RichMenuApiError message 400 default_details), signed_out)) /\
  @apiCall (host_replying (plain_reply 200 "{}")) config
    "/v2/bot/richmenu/bulk/link" POST None signed_out =
  (Throw unauthenticated, signed_out).
Proof.
  destruct (@local_validation_precedes_gate
              (host_replying (plain_reply 200 "{}")) config signed_out eq_refl)
    as [Hother [Hmissing [Hbig [Hlink [Hunlink Hgate]]]]].
  split; [ | split; [ | split; [ | split; [ | split ] ] ] ].
  - apply Hother.
  - apply Hmissing. reflexivity.
  - apply Hbig. rewrite big_buffer_length. reflexivity.
  - apply Hlink. rewrite repeat_length. apply Nat.lt_succ_diag_r.
  - apply Hunlink. rewrite repeat_length. apply Nat.lt_succ_diag_r.
  - apply Hgate.
Defined.

(** C10 on a one-byte buffer sent as [image/gif] and sent with no content
    type, and on the file [menu.jpg] passed as [image/gif]. *)
Lemma upload_forwards_contentType_witness :
  (exists rest,
      snd (@uploadRichMenuImage (scripted_host (always_reply (plain_reply 200 "{}"))
                                   [("menu.jpg", [x00])])
             config "menu-1" (InputBuffer [x00]) (Some "image/gif") signed_in) =
      push signed_in
        (EvFetch "https://api-data.line.me/v2/bot/richmenu/menu-1/content"
           (RequestInit.mk (Some "POST")
              [("Authorization", "Bearer token-1"); ("Content-Type", "image/gif")]
              (Some (BodyBuffer [x00])))
           :: rest)) /\
  (exists rest,
      snd (@uploadRichMenuImage (scripted_host (always_reply (plain_reply 200 "{}"))
                                   [("menu.jpg", [x00])])
             config "menu-1" (InputBuffer [x00]) None signed_in) =
      push signed_in
        (EvFetch "https://api-data.line.me/v2/bot/richmenu/menu-1/content"
           (RequestInit.mk (Some "POST")
              [("Authorization", "Bearer token-1"); ("Content-Type", "image/png")]
              (Some (BodyBuffer [x00])))
           :: rest)) /\
  (exists rest,
      snd (@uploadRichMenuImage (scripted_host (always_reply (plain_reply 200 "{}"))
                                   [("menu.jpg", [x00])])
             config "menu-1" (InputString "menu.jpg") (Some "image/gif") signed_in) =
      push signed_in
        (EvFetch "https://api-data.line.me/v2/bot/richmenu/menu-1/content"
           (RequestInit.mk (Some "POST")
              [("Authorization", "Bearer token-1"); ("Content-Type", "image/jpeg")]
              (Some (BodyBuffer [x00])))
           :: rest)).
Proof.
  destruct (@upload_forwards_contentType
              (scripted_host (always_reply (plain_reply 200 "{}"))
                 [("menu.jpg", [x00])])
              config "menu-1" [x00] signed_in eq_refl eq_refl)
    as [Hgiven [Homitted [_ Hpath]]].
  split; [ exact (Hgiven "image/gif") | split; [ exact Homitted | ] ].
  exact (Hpath (Some "image/gif") "menu.jpg" [x00] eq_refl eq_refl eq_refl).
Defined.

(** ** Concrete runs of the further properties *)

(** X1 on a network that answers 429 twice, then 200. *)
Lemma fetchWithRetry_retry_then_reply_witness :
  @fetchWithRetry
    (scripted_host (reply_after 2 (plain_reply 429 "slow down") (plain_reply 200 "{}")) [])
    config "https://api.line.me/x" RequestInit.empty 0 signed_in =
  (Return (Response.of_reply (plain_reply 200 "{}")),
   push signed_in
     (retry_rounds 1000 "https://api.line.me/x" RequestInit.empty 0 2
      ++ [EvFetch "https://api.line.me/x" RequestInit.empty])) /\
  delays (retry_rounds 1000 "https://api.line.me/x" RequestInit.empty 0 2
          ++ [EvFetch "https://api.line.me/x" RequestInit.empty]) = [1000; 2000].
Proof.
  destruct (@fetchWithRetry_retry_then_reply
              (scripted_host
                 (reply_after 2 (plain_reply 429 "slow down") (plain_reply 200 "{}")) [])
              config "https://api.line.me/x" RequestInit.empty signed_in 2
              (plain_reply 200 "{}")) as [Hrun [_ Hdelays]].
  - cbn. lia.
  - intros j Hj. destruct j as [| [| j]]; [ | | lia ];
      eexists; split; reflexivity.
  - reflexivity.
  - discriminate.
  - split; [ exact Hrun | exact Hdelays ].
Defined.

(** X2 under the shipped configuration: at most four calls, at most 7000
    milliseconds of sleep. *)
Lemma fetchWithRetry_bounds_witness :
  exists events,
    snd (@fetchWithRetry (host_replying (plain_reply 429 "slow down")) config
           "https://api.line.me/x" RequestInit.empty 0 signed_in) =
    push signed_in events /\
    (count_fetch events <= 4)%nat /\
    0 <= sum_Z (delays events) <= 7000.
Proof.
  destruct (@fetchWithRetry_bounds (host_replying (plain_reply 429 "slow down"))
              config "https://api.line.me/x" RequestInit.empty signed_in)
    as [k [events [He [_ [_ [_ [Hcount Hsum]]]]]]].
  exists events. split; [ exact He | split; [ exact Hcount | ] ].
  apply Hsum. cbn. lia.
Defined.

(** X3 on a network where every request fails. *)
Lemma apiCall_transport_failure_witness :
  @apiCall (scripted_host (always_failing (HostError "ECONNRESET")) []) config
    "/v2/bot/richmenu/list" GET None signed_in =
  (Throw (HostError "ECONNRESET"),
   push signed_in
     [EvFetch "https://api.line.me/v2/bot/richmenu/list"
        (mergedOptions "token-1" GET)]).
Proof.
  apply (@apiCall_transport_failure
           (scripted_host (always_failing (HostError "ECONNRESET")) []) config
           "/v2/bot/richmenu/list" GET None signed_in 0 (HostError "ECONNRESET")).
  - reflexivity.
  - cbn. lia.
  - intros j Hj. lia.
  - reflexivity.
Defined.


(** X7 on a 200 reply typed as JSON whose body is not JSON, and on a 200
    reply typed as text whose body is [[]]. *)
Lemma apiCall_success_edges_witness :
  (exists message,
      @apiCall (host_replying (json_reply 200 "oops")) config
        "/x" GET None signed_in =
      (Throw (SyntaxError message),
       push signed_in [EvFetch "https://api.line.me/x" (mergedOptions "token-1" GET)])) /\
  @apiCall (host_replying (plain_reply 200 "[]")) config "/x" GET None signed_in =
  (Return (JArr []),
   push signed_in [EvFetch "https://api.line.me/x" (mergedOptions "token-1" GET)]).
Proof.
  split.
  - destruct (@apiCall_success_edges (host_replying (json_reply 200 "oops")) config
                "/x" GET None signed_in
                (Response.of_reply (json_reply 200 "oops"))
                (push signed_in
                   [EvFetch "https://api.line.me/x" (mergedOptions "token-1" GET)]))
      as [H _]; [ reflexivity | run_scripted | discriminate | reflexivity | ].
    apply H; reflexivity.
  - destruct (@apiCall_success_edges (host_replying (plain_reply 200 "[]")) config
                "/x" GET None signed_in
                (Response.of_reply (plain_reply 200 "[]"))
                (push signed_in
                   [EvFetch "https://api.line.me/x" (mergedOptions "token-1" GET)]))
      as [_ H]; [ reflexivity | run_scripted | discriminate | reflexivity | ].
    apply H; [ reflexivity | discriminate | discriminate | reflexivity ].
Defined.

(** X8 on a body [{"richmenus":null}] and on a body [null]. *)
Lemma list_operations_edges_witness :
  @listRichMenus host_with_null_field config signed_in =
  (Return (Some (JArr [])),
   push signed_in
     [EvFetch "https://api.line.me/v2/bot/richmenu/list" (mergedOptions "token-1" GET)]) /\
  exists message,
    @listRichMenuAliases (host_replying (json_reply 200 "null")) config signed_in =
    (Throw (TypeError message),
     push signed_in
       [EvFetch "https://api.line.me/v2/bot/richmenu/alias/list"
          (mergedOptions "token-1" GET)]).
Proof.
  split.
  - destruct (@list_operations_edges host_with_null_field config signed_in
                (push signed_in
                   [EvFetch "https://api.line.me/v2/bot/richmenu/list"
                      (mergedOptions "token-1" GET)])) as [[H _] _].
    apply (H (JObj [("richmenus", JNull)]) JNull); [ run_scripted | reflexivity | reflexivity ].
  - destruct (@list_operations_edges (host_replying (json_reply 200 "null")) config
                signed_in
                (push signed_in
                   [EvFetch "https://api.line.me/v2/bot/richmenu/alias/list"
                      (mergedOptions "token-1" GET)])) as [_ [_ [H _]]].
    apply H. run_scripted.
Defined.


(** X10 on a path that cannot be read, and on a file of 1,048,577 bytes. *)
Lemma upload_file_edges_witness :
  @uploadRichMenuImage unreadable_host config "menu-1" (InputString "menus") None
    signed_out = (Throw (HostError "EISDIR"), signed_out) /\
  exists message,
    @uploadRichMenuImage
      (scripted_host (always_reply (plain_reply 200 "{}")) [("big.png", big_buffer)])
      config "menu-1" (InputString "big.png") None signed_out =
    (Throw (RichMenuApiError message 400 default_details), signed_out).
Proof.
  split.
  - apply (proj1 (@upload_file_edges unreadable_host config "menu-1" "menus" None
                    signed_out eq_refl)).
    reflexivity.
  - apply (proj2 (@upload_file_edges
                    (scripted_host (always_reply (plain_reply 200 "{}"))
                       [("big.png", big_buffer)])
                    config "menu-1" "big.png" None signed_out eq_refl) big_buffer).
    + reflexivity.
    + rewrite big_buffer_length. reflexivity.
Defined.

(** X11: the credential emptied, and a credential set in a world that had
    none. *)
Lemma setAccessToken_then_call_witness :
  @call (host_replying (plain_reply 200 "{}")) config (OpGetRichMenu "menu-1")
    (snd (setAccessToken "" signed_in)) =
  (Throw
     (RichMenuApiError
        "尚未設定 Channel Access Token。請先透過環境變數或 setAccessToken() 設定。"
        401 (JObj [])),
   signed_out) /\
  snd (@call (host_replying (plain_reply 200 "{}")) config
         (OpBulkLinkRichMenu "menu-1" (repeat "U1" 501))
         (snd (setAccessToken "" signed_in))) = signed_out /\
  exists events,
    snd (@call (host_replying (plain_reply 200 "{}")) config (OpGetRichMenu "menu-1")
           (snd (setAccessToken "token-2" signed_out))) =
    push {| channelAccessToken := "token-2"; trace := [] |} events /\
    forall url init,
      In (url, init) (requests events) ->
      assoc "Authorization" (RequestInit.headers init) = Some "Bearer token-2".
Proof.
  split; [ | split ].
  - destruct (@setAccessToken_then_call (host_replying (plain_reply 200 "{}")) config
                "" (OpGetRichMenu "menu-1") signed_in) as [_ [_ [_ [H _]]]].
    exact (H eq_refl eq_refl).
  - destruct (@setAccessToken_then_call (host_replying (plain_reply 200 "{}")) config
                "" (OpBulkLinkRichMenu "menu-1" (repeat "U1" 501)) signed_in)
      as [_ [_ [H _]]].
    exact (H eq_refl).
  - destruct (@setAccessToken_then_call (host_replying (plain_reply 200 "{}")) config
                "token-2" (OpGetRichMenu "menu-1") signed_out) as [_ [_ [_ [_ H]]]].
    exact H.
Defined.

(** X18 on a 500 reply: the typed error carries 500. *)
Lemma typed_error_status_not_2xx_witness :
  fst (@call (host_replying (plain_reply 500 "Internal Server Error")) config
         (OpGetRichMenu "menu-1") signed_in) =
  Throw (RichMenuApiError "API 呼叫失敗 (HTTP 500)：無法解析錯誤內容" 500
           (JObj [("message", JStr "無法解析錯誤內容")])) /\
  is_2xx 500 = false.
Proof.
  assert (Hrun : fst (@call (host_replying (plain_reply 500 "Internal Server Error"))
                        config (OpGetRichMenu "menu-1") signed_in) =
                 Throw (RichMenuApiError "API 呼叫失敗 (HTTP 500)：無法解析錯誤內容" 500
                          (JObj [("message", JStr "無法解析錯誤內容")])))
    by run_scripted.
  split; [ exact Hrun | ].
  apply (@typed_error_status_not_2xx
           (host_replying (plain_reply 500 "Internal Server Error")) config
           (OpGetRichMenu "menu-1") signed_in
           "API 呼叫失敗 (HTTP 500)：無法解析錯誤內容" 500
           (JObj [("message", JStr "無法解析錯誤內容")])); [ | exact Hrun ].
  split.
  - intros history url init e H. discriminate H.
  - intros path e H. cbn in H. injection H as <-. exact I.
Defined.

(** X12 on a 403 and on a 304 of the remote service, and with the
    credential unset. *)
Lemma serve_typed_error_witness :
  @serve (host_replying (json_reply 403 "{}")) config (GET_richmenus_id "menu-1")
    signed_in =
  ({| answer_status := 403;
      answer_body :=
        ResJson
          (JObj [("success", JBool false);
                 ("error", JObj [("code", JNum (inject_Z 403));
                                 ("message", JStr "權限不足，請確認 Token 的權限設定。");
                                 ("details", JObj [])])]) |},
   push signed_in
     [EvFetch "https://api.line.me/v2/bot/richmenu/menu-1" (mergedOptions "token-1" GET)]) /\
  @serve (host_replying (json_reply 304 "{}")) config (GET_richmenus_id "menu-1")
    signed_in =
  ({| answer_status := 304; answer_body := ResEmpty |},
   push signed_in
     [EvFetch "https://api.line.me/v2/bot/richmenu/menu-1" (mergedOptions "token-1" GET)]) /\
  answer_status
    (fst (@serve (host_replying (json_reply 403 "{}")) config
            (GET_richmenus_id "menu-1") signed_out)) = 401.
Proof.
  split; [ | split ].
  - destruct (@serve_typed_error (host_replying (json_reply 403 "{}")) config
                (GET_richmenus_id "menu-1") (OpGetRichMenu "menu-1") signed_in eq_refl)
      as [Hgen _].
    destruct (Hgen "權限不足，請確認 Token 的權限設定。" 403 (JObj [])
                (push signed_in
                   [EvFetch "https://api.line.me/v2/bot/richmenu/menu-1"
                      (mergedOptions "token-1" GET)])
                ltac:(run_scripted) ltac:(discriminate)) as [Herror _].
    apply Herror. lia.
  - destruct (@serve_typed_error (host_replying (json_reply 304 "{}")) config
                (GET_richmenus_id "menu-1") (OpGetRichMenu "menu-1") signed_in eq_refl)
      as [Hgen _].
    destruct (Hgen "API 呼叫失敗 (HTTP 304)：{}" 304 (JObj [])
                (push signed_in
                   [EvFetch "https://api.line.me/v2/bot/richmenu/menu-1"
                      (mergedOptions "token-1" GET)])
                ltac:(run_scripted) ltac:(discriminate)) as [_ Hbare].
    exact (Hbare eq_refl).
  - destruct (@serve_typed_error (host_replying (json_reply 403 "{}")) config
                (GET_richmenus_id "menu-1") (OpGetRichMenu "menu-1") signed_out eq_refl)
      as [_ Hunset].
    rewrite (Hunset eq_refl eq_refl). reflexivity.
Defined.

(** X13 on a 404 of the remote service. *)
Lemma serve_not_found_as_null_witness :
  @serve (host_replying (json_reply 404 "{}")) config GET_default_richmenu signed_in =
  (json_answer 200 (JObj [("success", JBool true); ("data", JNull)]),
   push signed_in
     [EvFetch "https://api.line.me/v2/bot/user/all/richmenu"
        (mergedOptions "token-1" GET)]) /\
  answer_status
    (fst (@serve (host_replying (json_reply 404 "{}")) config
            (GET_users_richmenu "U1") signed_in)) <> 404.
Proof.
  destruct (@serve_not_found_as_null (host_replying (json_reply 404 "{}")) config
              GET_default_richmenu signed_in eq_refl) as [Hnull _].
  destruct (@serve_not_found_as_null (host_replying (json_reply 404 "{}")) config
              (GET_users_richmenu "U1") signed_in eq_refl) as [_ Hnever].
  split; [ | exact Hnever ].
  apply (Hnull OpGetDefaultRichMenu "找不到指定的資源（Rich Menu 或使用者）。" (JObj []));
    [ reflexivity | run_scripted ].
Defined.

(** X14 on tokens of ten and of nine characters, on tokens of ten and of
    four characters that take three bytes each, and on a token of five
    characters that take two code units each. *)
Lemma post_token_route_witness :
  @serve (host_replying (plain_reply 200 "{}")) config
    (POST_token (Some "0123456789")) signed_out =
  ({| answer_status := 200;
      answer_body :=
        ResJson (JObj [("success", JBool true); ("message", JStr "Token 已設定")]) |},
   {| channelAccessToken := "0123456789"; trace := [] |}) /\
  @serve (host_replying (plain_reply 200 "{}")) config
    (POST_token (Some "012345678")) signed_out =
  ({| answer_status := 400;
      answer_body :=
        ResJson (JObj [("success", JBool false); ("error", JStr "Token 格式不正確")]) |},
   signed_out) /\
  @serve (host_replying (plain_reply 200 "{}")) config
    (POST_token (Some "一二三四五六七八九十")) signed_out =
  ({| answer_status := 200;
      answer_body :=
        ResJson (JObj [("success", JBool true); ("message", JStr "Token 已設定")]) |},
   {| channelAccessToken := "一二三四五六七八九十"; trace := [] |}) /\
  @serve (host_replying (plain_reply 200 "{}")) config
    (POST_token (Some "四個字元")) signed_out =
  ({| answer_status := 400;
      answer_body :=
        ResJson (JObj [("success", JBool false); ("error", JStr "Token 格式不正確")]) |},
   signed_out) /\
  @serve (host_replying (plain_reply 200 "{}")) config
    (POST_token (Some "😀😀😀😀😀")) signed_out =
  ({| answer_status := 200;
      answer_body :=
        ResJson (JObj [("success", JBool true); ("message", JStr "Token 已設定")]) |},
   {| channelAccessToken := "😀😀😀😀😀"; trace := [] |}).
Proof.
  split; [ | split; [ | split; [ | split ] ] ].
  - destruct (proj2 (@post_token_route (host_replying (plain_reply 200 "{}")) config
                       (Some "0123456789") signed_out) "0123456789" eq_refl)
      as [H _]; [ vm_compute; lia | exact H ].
  - apply (proj1 (@post_token_route (host_replying (plain_reply 200 "{}")) config
                    (Some "012345678") signed_out)).
    right. exists "012345678". split; [ reflexivity | vm_compute; lia ].
  - destruct (proj2 (@post_token_route (host_replying (plain_reply 200 "{}")) config
                       (Some "一二三四五六七八九十") signed_out)
                "一二三四五六七八九十" eq_refl)
      as [H _]; [ vm_compute; lia | exact H ].
  - apply (proj1 (@post_token_route (host_replying (plain_reply 200 "{}")) config
                    (Some "四個字元") signed_out)).
    right. exists "四個字元". split; [ reflexivity | vm_compute; lia ].
  - destruct (proj2 (@post_token_route (host_replying (plain_reply 200 "{}")) config
                       (Some "😀😀😀😀😀") signed_out)
                "😀😀😀😀😀" eq_refl)
      as [H _]; [ vm_compute; lia | exact H ].
Defined.

(** X16 on a JPEG of one byte. *)
Lemma upload_route_witness :
  exists events,
    snd (@serve (host_replying (plain_reply 200 "{}")) config
           (POST_richmenus_id_image "menu-1"
              (Some {| mimetype := "image/jpeg"; buffer := [x00] |})) signed_in) =
    push signed_in events /\
    forall url init,
      In (url, init) (requests events) ->
      assoc "Content-Type" (RequestInit.headers init) = Some "image/jpeg" /\
      In "image/jpeg" (ALLOWED_IMAGE_TYPES config).
Proof.
  destruct (@upload_route (host_replying (plain_reply 200 "{}")) config
              "menu-1" signed_in) as [_ [_ H]].
  apply (H {| mimetype := "image/jpeg"; buffer := [x00] |}). reflexivity.
Defined.

(** X17 on the file [menu.jpg]. *)
Lemma cli_upload_contentType_witness :
  exists rest,
    snd (@cli_upload
           (scripted_host (always_reply (plain_reply 200 "{}")) [("menu.jpg", [x00])])
           config "menu-1" "menu.jpg" signed_in) =
    push signed_in
      (EvFetch "https://api-data.line.me/v2/bot/richmenu/menu-1/content"
         (RequestInit.mk (Some "POST")
            [("Authorization", "Bearer token-1"); ("Content-Type", "image/jpeg")]
            (Some (BodyBuffer [x00])))
         :: rest).
Proof.
  destruct (@cli_upload_contentType
              (scripted_host (always_reply (plain_reply 200 "{}")) [("menu.jpg", [x00])])
              config "menu-1" "menu.jpg" signed_in eq_refl eq_refl)
    as [ext [mime [Hext [Hcases [_ [_ Hsend]]]]]].
  assert (Hmime : mime = "image/jpeg").
  { destruct Hcases as [[Hpng _] | [_ Hjpeg]]; [ | exact Hjpeg ].
    rewrite Hext in Hpng. vm_compute in Hpng. discriminate Hpng. }
  rewrite Hmime in Hsend.
  exact (Hsend [x00] eq_refl eq_refl eq_refl).
Defined.
